(** * screensaver_app.py: activation/exit state machine and rendering

    A shallow embedding of [deploy/screensaver_app.py]: the image scaler
    ([resize_image] and the per-monitor frame of [show_current_image_on_all]),
    the folder listing, and the methods of [ScreenSaverApp] that drive the
    session (activation, exit, slideshow and clock timers, idle polling,
    input handlers), followed by the properties stated about them.

    Python values are modelled as the interpreter has them: [int] is [Z],
    [float] is IEEE 754 binary64 (the Standard Library's [SpecFloat] at
    precision 53), an exception is a [Raise] result that leaves the object
    state as it was when raised. *)

From Stdlib Require Import ZArith Ascii String List Bool Lia.
From Stdlib Require Import Floats.SpecFloat.
From stdpp Require Import gmap strings list.

Open Scope string_scope.
Open Scope Z_scope.

(* ===================================================================== *)
(** ** Python: exceptions, results, numbers                               *)
(* ===================================================================== *)

Inductive exn : Type :=
| ValueError
| OverflowError
| ZeroDivisionError
| IndexError.

Inductive Res (A : Type) : Type :=
| Ok (a : A)
| Raise (e : exn).
Arguments Ok {A} a.
Arguments Raise {A} e.

Definition res_bind {A B : Type} (c : Res A) (k : A -> Res B) : Res B :=
  match c with
  | Ok a => k a
  | Raise e => Raise e
  end.

Notation "'let?' x := c 'in' k" := (res_bind c (fun x => k))
  (at level 10, x name, c at level 100, k at level 200, only parsing).
Notation "'let?' ' pat := c 'in' k" :=
  (res_bind c (fun x => match x with pat => k end))
  (at level 10, pat pattern, c at level 100, k at level 200, only parsing).

Module PyFloat.

(** binary64 *)
Definition prec : Z := 53.
Definition emax : Z := 1024.
Definition float : Type := spec_float.

(** [float(n)] for an int: nearest double, ties to even; ints beyond the
    double range raise OverflowError. *)
Definition of_int (n : Z) : Res float :=
  match binary_normalize prec emax n 0 false with
  | S754_infinity _ => Raise OverflowError
  | x => Ok x
  end.

(** [a / b] on two ints: the correctly rounded quotient. *)
Definition truediv (a b : Z) : Res float :=
  if b =? 0 then Raise ZeroDivisionError
  else
    match a with
    | Z0 => Ok (S754_zero (b <? 0))
    | _ =>
        match SFdiv prec emax
                (S754_finite (a <? 0) (Z.to_pos (Z.abs a)) 0)
                (S754_finite (b <? 0) (Z.to_pos (Z.abs b)) 0) with
        | S754_infinity _ => Raise OverflowError
        | x => Ok x
        end
    end.

(** [n * x] with [n] an int and [x] a float. *)
Definition int_mul (n : Z) (x : float) : Res float :=
  let? fn := of_int n in
  Ok (SFmul prec emax fn x).

(** [int(x)]: truncation towards zero. *)
Definition to_int (x : float) : Res Z :=
  match x with
  | S754_zero _ => Ok 0
  | S754_infinity _ => Raise OverflowError
  | S754_nan => Raise ValueError
  | S754_finite s m e =>
      let a := Z.shiftl (Zpos m) e in
      Ok (if s then - a else a)
  end.

Definition sub (x y : float) : float := SFsub prec emax x y.
Definition ltb (x y : float) : bool := SFltb x y.

(** [min(x, y)] and [max(x, y)]: the first argument unless the second is
    strictly smaller (resp. larger). *)
Definition min (x y : float) : float := if ltb y x then y else x.
Definition max (x y : float) : float := if ltb x y then y else x.

(** [x >= n] with [n] an int: Python compares the exact values. *)
Definition ge_int (x : float) (n : Z) : bool :=
  match x with
  | S754_nan => false
  | S754_infinity s => negb s
  | S754_zero _ => n <=? 0
  | S754_finite s m e =>
      let v := if s then Zneg m else Zpos m in
      if 0 <=? e then n <=? v * 2 ^ e
      else n * 2 ^ (- e) <=? v
  end.

(** The literal [0.2]: 0x1.999999999999ap-3. *)
Definition c_0_2 : float := S754_finite false 7205759403792794 (-55).

End PyFloat.

Abbreviation float := PyFloat.float.

(** [l[i]] on a Python list: negative indices count from the end. *)
Definition py_index {A : Type} (l : list A) (i : Z) : Res A :=
  let n := Z.of_nat (length l) in
  let j := if i <? 0 then i + n else i in
  if (j <? 0) || (n <=? j) then Raise IndexError
  else
    match l !! Z.to_nat j with
    | Some a => Ok a
    | None => Raise IndexError
    end.

(* ===================================================================== *)
(** ** PIL.Image                                                          *)
(* ===================================================================== *)

(** An image is its size and, for each pixel, where the pixel's value comes
    from: the decoded picture (with the coordinates in the decoded file),
    a flat fill colour, or the zero fill that [crop] produces outside its
    source.  The resampling filter itself is not modelled: a resized pixel
    takes the origin of the source pixel at the proportional position. *)
Inductive Pixel : Type :=
| Content (x y : Z)
| Background (color : string)
| Padding.

Record Image : Type := mkImage {
  width : Z;
  height : Z;
  pixel : Z -> Z -> Pixel
}.

Module PIL.

Definition inside (img : Image) (x y : Z) : bool :=
  (0 <=? x) && (x <? width img) && (0 <=? y) && (y <? height img).

(** [img.resize((w, h), Image.LANCZOS)]: a copy when the size is already
    [(w, h)]; otherwise the requested size must be at least 1x1. *)
Definition resize (img : Image) (w h : Z) : Res Image :=
  if (width img =? w) && (height img =? h) then Ok img
  else if (w <? 1) || (h <? 1) then Raise ValueError
  else Ok {| width := w; height := h;
             pixel := fun x y =>
               if (0 <? width img) && (0 <? height img)
               then pixel img (x * width img / w) (y * height img / h)
               else Padding |}.

(** [img.crop((l, t, r, b))]: the region has size [(r - l, b - t)]; the
    part of the box that lies outside the image is zero-filled. *)
Definition crop (img : Image) (l t r b : Z) : Res Image :=
  if (r <? l) || (b <? t) then Raise ValueError
  else Ok {| width := r - l; height := b - t;
             pixel := fun x y =>
               if inside img (x + l) (y + t)
               then pixel img (x + l) (y + t)
               else Padding |}.

(** [Image.new("RGB", (w, h), color)] *)
Definition new (w h : Z) (color : string) : Res Image :=
  if (w <? 0) || (h <? 0) then Raise ValueError
  else Ok {| width := w; height := h;
             pixel := fun _ _ => Background color |}.

(** [canvas.paste(im, (x, y))] (the canvas keeps its size) *)
Definition paste (canvas im : Image) (x y : Z) : Image :=
  {| width := width canvas; height := height canvas;
     pixel := fun u v =>
       if inside im (u - x) (v - y)
       then pixel im (u - x) (v - y)
       else pixel canvas u v |}.

(** A decoded picture of the given size. *)
Definition decoded (w h : Z) : Image :=
  {| width := w; height := h; pixel := Content |}.

End PIL.

(* ===================================================================== *)
(** ** Image utilities (module level)                                     *)
(* ===================================================================== *)

(** Lines 138-139 and 144-145, which differ only in [min]/[max]:
    [ratio = pick(target_w / iw, target_h / ih)],
    [nw, nh = int(iw * ratio), int(ih * ratio)]. *)
Definition scaled_size (pick : float -> float -> float)
    (iw ih target_w target_h : Z) : Res (Z * Z) :=
  let? rw := PyFloat.truediv target_w iw in
  let? rh := PyFloat.truediv target_h ih in
  let ratio := pick rw rh in
  let? fw := PyFloat.int_mul iw ratio in
  let? nw := PyFloat.to_int fw in
  let? fh := PyFloat.int_mul ih ratio in
  let? nh := PyFloat.to_int fh in
  Ok (nw, nh).

Definition resize_image (img : Image) (target_w target_h : Z)
    (scale_mode : string) : Res Image :=
  if String.eqb scale_mode "stretch" then
    PIL.resize img target_w target_h
  else
    let iw := width img in
    let ih := height img in
    if (iw =? 0) || (ih =? 0) then Ok img
    else if String.eqb scale_mode "fit" then
      let? '(nw, nh) := scaled_size PyFloat.min iw ih target_w target_h in
      PIL.resize img nw nh
    else if String.eqb scale_mode "fill" then
      let? '(nw, nh) := scaled_size PyFloat.max iw ih target_w target_h in
      let? img2 := PIL.resize img nw nh in
      let crop_left := (nw - target_w) / 2 in
      let crop_top := (nh - target_h) / 2 in
      PIL.crop img2 crop_left crop_top
               (crop_left + target_w) (crop_top + target_h)
    else Ok img.

(** The frame that [show_current_image_on_all] puts on one label
    (lines 515-524): [W, H] are the monitor's width and height. *)
Definition render_frame (base_img : Image) (W H : Z)
    (scale_mode bg : string) : Res Image :=
  if String.eqb scale_mode "fit" then
    let? resized := resize_image base_img W H "fit" in
    let? canvas := PIL.new W H bg in
    let x := (W - width resized) / 2 in
    let y := (H - height resized) / 2 in
    Ok (PIL.paste canvas resized x y)
  else
    resize_image base_img W H scale_mode.

(* ===================================================================== *)
(** ** os / os.path                                                       *)
(* ===================================================================== *)

(** The file system as the calls of this program see it.  [join] is
    [os.path.join] of the platform. *)
Record FileSystem : Type := mkFS {
  isdir : string -> bool;
  isfile : string -> bool;
  listdir : string -> list string;
  join : string -> string -> string
}.

Definition SUPPORTED_EXTS : list string :=
  [".png"; ".jpg"; ".jpeg"; ".bmp"; ".gif"; ".tiff"; ".webp"].

(** [s.rfind(c)] *)
Fixpoint rfind (c : ascii) (s : string) : option nat :=
  match s with
  | EmptyString => None
  | String a rest =>
      match rfind c rest with
      | Some i => Some (S i)
      | None => if Ascii.eqb a c then Some O else None
      end
  end.

(** Is some character of [s] at an index in [[from, to)] different from
    [c]?  (The loop of [genericpath._splitext] that skips leading dots.) *)
Fixpoint other_than (c : ascii) (s : string) (from to : nat) : bool :=
  match s, to with
  | EmptyString, _ => false
  | _, O => false
  | String a rest, S to' =>
      match from with
      | O => negb (Ascii.eqb a c) || other_than c rest O to'
      | S from' => other_than c rest from' to'
      end
  end.

(** [os.path.splitext(p)] *)
Definition splitext (p : string) : string * string :=
  let filenameIndex :=
    match rfind "/" p with Some i => S i | None => O end in
  match rfind "." p with
  | Some dotIndex =>
      if (filenameIndex <=? dotIndex)%nat
         && other_than "." p filenameIndex dotIndex
      then (substring 0 dotIndex p,
            substring dotIndex (String.length p - dotIndex) p)
      else (p, "")
  | None => (p, "")
  end.

(** [s.lower()] on the ASCII letters (no other character lower-cases to a
    letter of [SUPPORTED_EXTS]). *)
Definition lower_ascii (a : ascii) : ascii :=
  let n := nat_of_ascii a in
  if (65 <=? n)%nat && (n <=? 90)%nat then ascii_of_nat (n + 32) else a.

Fixpoint lower (s : string) : string :=
  match s with
  | EmptyString => EmptyString
  | String a rest => String (lower_ascii a) (lower rest)
  end.

Definition supported (name : string) : bool :=
  existsb (String.eqb (lower (snd (splitext name)))) SUPPORTED_EXTS.

(** The loop body of [list_images_in_folder], over the names that
    [os.listdir] returned. *)
Fixpoint collect_images (fs : FileSystem) (folder : string)
    (names : list string) : list string :=
  match names with
  | [] => []
  | name :: rest =>
      let p := join fs folder name in
      if isfile fs p && supported name
      then p :: collect_images fs folder rest
      else collect_images fs folder rest
  end.

Definition list_images_in_folder (fs : FileSystem) (folder : string)
    : list string :=
  if negb (isdir fs folder) then []
  else collect_images fs folder (listdir fs folder).

(* ===================================================================== *)
(** ** tkinter                                                            *)
(* ===================================================================== *)

(** The bound methods that the program registers as event handlers and as
    [after] callbacks. *)
Inductive Handler : Type :=
| h_exit_screensaver
| h_on_mouse_motion.

Inductive Callback : Type :=
| cb_check_idle
| cb_next_slide
| cb_update_clock_overlay.

Inductive EventClass : Type :=
| KeyPress
| ButtonPress
| Motion.

Global Instance EventClass_eq_dec : EqDecision EventClass.
Proof. solve_decision. Defined.

(** The event pattern of a [bind] sequence: [<Key>] abbreviates
    [<KeyPress>], and the [Any] modifier changes nothing. *)
Definition event_class (sequence : string) : option EventClass :=
  if String.eqb sequence "<Key>" then Some KeyPress
  else if String.eqb sequence "<Any-KeyPress>" then Some KeyPress
  else if String.eqb sequence "<Any-ButtonPress>" then Some ButtonPress
  else if String.eqb sequence "<Motion>" then Some Motion
  else None.

Definition Bindings : Type := list (EventClass * Handler).

(** [widget.bind(sequence, handler)] replaces the binding of the pattern. *)
Definition bind_event (sequence : string) (h : Handler) (b : Bindings)
    : Bindings :=
  match event_class sequence with
  | Some c => (c, h) :: filter (fun p => bool_decide (fst p <> c)) b
  | None => b
  end.

Fixpoint binding_of (c : EventClass) (b : Bindings) : option Handler :=
  match b with
  | [] => None
  | (c', h) :: rest => if bool_decide (c' = c) then Some h else binding_of c rest
  end.

(** A monitor rectangle, the dict [{left, top, width, height}]. *)
Record Monitor : Type := mkMonitor {
  mon_left : Z;
  mon_top : Z;
  mon_width : Z;
  mon_height : Z
}.

(** A [Toplevel] of the screen saver. *)
Record Window : Type := mkWindow {
  w_overrideredirect : bool;
  w_topmost : bool;
  w_cursor : string;
  w_bg : string;
  w_geometry : option Monitor;
  w_bindings : Bindings
}.

(** The [Label] packed in a saver window, with the options the program
    configures. *)
Record Label : Type := mkLabel {
  l_image : option Image;
  l_text : string;
  l_bg : string;
  l_fg : string;
  l_font : option (string * Z * string)
}.

(** A pending [root.after(ms, callback)]. *)
Record Timer : Type := mkTimer {
  t_id : nat;
  t_ms : Z;
  t_callback : Callback
}.

Inductive WmState : Type :=
| wm_normal
| wm_iconic
| wm_withdrawn.

(** The toolkit side: the root (settings) window, the live toplevels, the
    pending timers, and the error dialogs shown so far. *)
Record Tk : Type := mkTk {
  root_wm : WmState;
  root_bindings : Bindings;
  toplevels : gmap nat Window;
  next_window : nat;
  pending : list Timer;
  next_timer : nat;
  dialogs : list (string * string)
}.

Definition tk_set_root_wm (v : WmState) (t : Tk) : Tk :=
  {| root_wm := v; root_bindings := root_bindings t; toplevels := toplevels
     t; next_window := next_window t; pending := pending t; next_timer :=
     next_timer t; dialogs := dialogs t |}.

Definition tk_set_root_bindings (v : list (EventClass * Handler)) (t : Tk) : Tk :=
  {| root_wm := root_wm t; root_bindings := v; toplevels := toplevels t;
     next_window := next_window t; pending := pending t; next_timer :=
     next_timer t; dialogs := dialogs t |}.

Definition tk_set_toplevels (v : gmap nat Window) (t : Tk) : Tk :=
  {| root_wm := root_wm t; root_bindings := root_bindings t; toplevels := v;
     next_window := next_window t; pending := pending t; next_timer :=
     next_timer t; dialogs := dialogs t |}.

Definition tk_set_next_window (v : nat) (t : Tk) : Tk :=
  {| root_wm := root_wm t; root_bindings := root_bindings t; toplevels :=
     toplevels t; next_window := v; pending := pending t; next_timer :=
     next_timer t; dialogs := dialogs t |}.

Definition tk_set_pending (v : list Timer) (t : Tk) : Tk :=
  {| root_wm := root_wm t; root_bindings := root_bindings t; toplevels :=
     toplevels t; next_window := next_window t; pending := v; next_timer :=
     next_timer t; dialogs := dialogs t |}.

Definition tk_set_next_timer (v : nat) (t : Tk) : Tk :=
  {| root_wm := root_wm t; root_bindings := root_bindings t; toplevels :=
     toplevels t; next_window := next_window t; pending := pending t;
     next_timer := v; dialogs := dialogs t |}.

Definition tk_set_dialogs (v : list (string * string)) (t : Tk) : Tk :=
  {| root_wm := root_wm t; root_bindings := root_bindings t; toplevels :=
     toplevels t; next_window := next_window t; pending := pending t;
     next_timer := next_timer t; dialogs := v |}.

(* ===================================================================== *)
(** ** Configuration and the settings form                                *)
(* ===================================================================== *)

Record Config : Type := mkConfig {
  mode : string;
  image_path : string;
  timeout_seconds : Z;
  slideshow_interval : Z;
  scale_mode : string;
  background : string;
  shuffle : bool;
  mouse_move_exit_pixels : Z;
  allow_blank_single : bool;
  clock_overlay : bool;
  start_in_tray : bool
}.

Definition default_config : Config :=
  {| mode := "single";
     image_path := "";
     timeout_seconds := 300;
     slideshow_interval := 10;
     scale_mode := "fit";
     background := "#000000";
     shuffle := true;
     mouse_move_exit_pixels := 10;
     allow_blank_single := true;
     clock_overlay := false;
     start_in_tray := false |}.

(** What the form's variables and entries give when read:
    [path_entry] is [self.path_entry.get().strip()]; [timeout_entry] and
    [slide_entry] are [int(entry.get())], [None] when that raises
    ValueError. *)
Record Widgets : Type := mkWidgets {
  mode_var : string;
  path_entry : string;
  timeout_entry : option Z;
  slide_entry : option Z;
  scale_var : string;
  bg_preview : string;
  shuffle_var : bool;
  allow_blank_var : bool;
  clock_overlay_var : bool
}.

(* ===================================================================== *)
(** ** ScreenSaverApp: the object state                                   *)
(* ===================================================================== *)

Record App : Type := mkApp {
  config : Config;
  saver_active : bool;
  background_only : bool;
  saver_windows : list nat;
  saver_labels : list (Label * Monitor);
  current_images : list (option string);
  slideshow_index : Z;
  slideshow_job : option nat;
  idle_check_job : option nat;
  clock_job : option nat;
  activated_mouse_positions : gmap nat (option (Z * Z));
  activated_at : float;
  tray : bool;
  widgets : Widgets;
  tk : Tk
}.

Definition set_config (v : Config) (s : App) : App :=
  {| config := v; saver_active := saver_active s; background_only :=
     background_only s; saver_windows := saver_windows s; saver_labels :=
     saver_labels s; current_images := current_images s; slideshow_index :=
     slideshow_index s; slideshow_job := slideshow_job s; idle_check_job :=
     idle_check_job s; clock_job := clock_job s; activated_mouse_positions :=
     activated_mouse_positions s; activated_at := activated_at s; tray := tray
     s; widgets := widgets s; tk := tk s |}.

Definition set_saver_active (v : bool) (s : App) : App :=
  {| config := config s; saver_active := v; background_only :=
     background_only s; saver_windows := saver_windows s; saver_labels :=
     saver_labels s; current_images := current_images s; slideshow_index :=
     slideshow_index s; slideshow_job := slideshow_job s; idle_check_job :=
     idle_check_job s; clock_job := clock_job s; activated_mouse_positions :=
     activated_mouse_positions s; activated_at := activated_at s; tray := tray
     s; widgets := widgets s; tk := tk s |}.

Definition set_background_only (v : bool) (s : App) : App :=
  {| config := config s; saver_active := saver_active s; background_only :=
     v; saver_windows := saver_windows s; saver_labels := saver_labels s;
     current_images := current_images s; slideshow_index := slideshow_index s;
     slideshow_job := slideshow_job s; idle_check_job := idle_check_job s;
     clock_job := clock_job s; activated_mouse_positions :=
     activated_mouse_positions s; activated_at := activated_at s; tray := tray
     s; widgets := widgets s; tk := tk s |}.

Definition set_saver_windows (v : list nat) (s : App) : App :=
  {| config := config s; saver_active := saver_active s; background_only :=
     background_only s; saver_windows := v; saver_labels := saver_labels s;
     current_images := current_images s; slideshow_index := slideshow_index s;
     slideshow_job := slideshow_job s; idle_check_job := idle_check_job s;
     clock_job := clock_job s; activated_mouse_positions :=
     activated_mouse_positions s; activated_at := activated_at s; tray := tray
     s; widgets := widgets s; tk := tk s |}.

Definition set_saver_labels (v : list (Label * Monitor)) (s : App) : App :=
  {| config := config s; saver_active := saver_active s; background_only :=
     background_only s; saver_windows := saver_windows s; saver_labels := v;
     current_images := current_images s; slideshow_index := slideshow_index s;
     slideshow_job := slideshow_job s; idle_check_job := idle_check_job s;
     clock_job := clock_job s; activated_mouse_positions :=
     activated_mouse_positions s; activated_at := activated_at s; tray := tray
     s; widgets := widgets s; tk := tk s |}.

Definition set_current_images (v : list (option string)) (s : App) : App :=
  {| config := config s; saver_active := saver_active s; background_only :=
     background_only s; saver_windows := saver_windows s; saver_labels :=
     saver_labels s; current_images := v; slideshow_index := slideshow_index s;
     slideshow_job := slideshow_job s; idle_check_job := idle_check_job s;
     clock_job := clock_job s; activated_mouse_positions :=
     activated_mouse_positions s; activated_at := activated_at s; tray := tray
     s; widgets := widgets s; tk := tk s |}.

Definition set_slideshow_index (v : Z) (s : App) : App :=
  {| config := config s; saver_active := saver_active s; background_only :=
     background_only s; saver_windows := saver_windows s; saver_labels :=
     saver_labels s; current_images := current_images s; slideshow_index := v;
     slideshow_job := slideshow_job s; idle_check_job := idle_check_job s;
     clock_job := clock_job s; activated_mouse_positions :=
     activated_mouse_positions s; activated_at := activated_at s; tray := tray
     s; widgets := widgets s; tk := tk s |}.

Definition set_slideshow_job (v : option nat) (s : App) : App :=
  {| config := config s; saver_active := saver_active s; background_only :=
     background_only s; saver_windows := saver_windows s; saver_labels :=
     saver_labels s; current_images := current_images s; slideshow_index :=
     slideshow_index s; slideshow_job := v; idle_check_job := idle_check_job s;
     clock_job := clock_job s; activated_mouse_positions :=
     activated_mouse_positions s; activated_at := activated_at s; tray := tray
     s; widgets := widgets s; tk := tk s |}.

Definition set_idle_check_job (v : option nat) (s : App) : App :=
  {| config := config s; saver_active := saver_active s; background_only :=
     background_only s; saver_windows := saver_windows s; saver_labels :=
     saver_labels s; current_images := current_images s; slideshow_index :=
     slideshow_index s; slideshow_job := slideshow_job s; idle_check_job := v;
     clock_job := clock_job s; activated_mouse_positions :=
     activated_mouse_positions s; activated_at := activated_at s; tray := tray
     s; widgets := widgets s; tk := tk s |}.

Definition set_clock_job (v : option nat) (s : App) : App :=
  {| config := config s; saver_active := saver_active s; background_only :=
     background_only s; saver_windows := saver_windows s; saver_labels :=
     saver_labels s; current_images := current_images s; slideshow_index :=
     slideshow_index s; slideshow_job := slideshow_job s; idle_check_job :=
     idle_check_job s; clock_job := v; activated_mouse_positions :=
     activated_mouse_positions s; activated_at := activated_at s; tray := tray
     s; widgets := widgets s; tk := tk s |}.

Definition set_activated_mouse_positions (v : gmap nat (option (Z * Z))) (s : App) : App :=
  {| config := config s; saver_active := saver_active s; background_only :=
     background_only s; saver_windows := saver_windows s; saver_labels :=
     saver_labels s; current_images := current_images s; slideshow_index :=
     slideshow_index s; slideshow_job := slideshow_job s; idle_check_job :=
     idle_check_job s; clock_job := clock_job s; activated_mouse_positions :=
     v; activated_at := activated_at s; tray := tray s; widgets := widgets s;
     tk := tk s |}.

Definition set_activated_at (v : float) (s : App) : App :=
  {| config := config s; saver_active := saver_active s; background_only :=
     background_only s; saver_windows := saver_windows s; saver_labels :=
     saver_labels s; current_images := current_images s; slideshow_index :=
     slideshow_index s; slideshow_job := slideshow_job s; idle_check_job :=
     idle_check_job s; clock_job := clock_job s; activated_mouse_positions :=
     activated_mouse_positions s; activated_at := v; tray := tray s; widgets :=
     widgets s; tk := tk s |}.

Definition set_tk (v : Tk) (s : App) : App :=
  {| config := config s; saver_active := saver_active s; background_only :=
     background_only s; saver_windows := saver_windows s; saver_labels :=
     saver_labels s; current_images := current_images s; slideshow_index :=
     slideshow_index s; slideshow_job := slideshow_job s; idle_check_job :=
     idle_check_job s; clock_job := clock_job s; activated_mouse_positions :=
     activated_mouse_positions s; activated_at := activated_at s; tray := tray
     s; widgets := widgets s; tk := v |}.

(** What the platform and the outside world answer during one callback:
    the file system, [open_image_safe]'s decoder, [time.time()],
    [get_idle_seconds()], [get_all_monitors()], the pointer position
    ([None] when the query raises), the outcome of [random.shuffle] (some
    rearrangement of its argument), and [time.strftime("%H:%M:%S")]. *)
Record Env : Type := mkEnv {
  fs : FileSystem;
  open_image_safe : string -> option Image;
  time_time : float;
  get_idle_seconds : float;
  get_all_monitors : list Monitor;
  winfo_pointer : option (Z * Z);
  random_shuffle : list string -> list string;
  random_shuffle_perm : forall l, Permutation (random_shuffle l) l;
  strftime : string
}.

(** *** Methods run on the object state and may raise *)

Definition M (A : Type) : Type := App -> Res A * App.

Definition ret {A : Type} (a : A) : M A := fun s => (Ok a, s).

Definition bind {A B : Type} (c : M A) (k : A -> M B) : M B :=
  fun s =>
    match c s with
    | (Ok a, s') => k a s'
    | (Raise e, s') => (Raise e, s')
    end.

Definition gets {A : Type} (f : App -> A) : M A := fun s => (Ok (f s), s).

Definition modify (f : App -> App) : M unit := fun s => (Ok tt, f s).

Definition lift {A : Type} (r : Res A) : M A := fun s => (r, s).

(** [try: c finally: h] *)
Definition finally {A : Type} (c : M A) (h : M unit) : M A :=
  fun s =>
    match c s with
    | (r, s') =>
        match h s' with
        | (Ok _, s'') => (r, s'')
        | (Raise e, s'') => (Raise e, s'')
        end
    end.

Notation "'let!' x := c 'in' k" := (bind c (fun x => k))
  (at level 10, x name, c at level 100, k at level 200, only parsing).
Notation "'do!' c 'in' k" := (bind c (fun _ => k))
  (at level 10, c at level 100, k at level 200, only parsing).

(** [a % b] on two ints *)
Definition py_mod (a b : Z) : Res Z :=
  if b =? 0 then Raise ZeroDivisionError else Ok (a mod b).

(** *** Toolkit calls *)

Definition update_tk (f : Tk -> Tk) : M unit :=
  modify (fun s => set_tk (f (tk s)) s).

(** [self.root.after(ms, callback)] *)
Definition after (ms : Z) (cb : Callback) : M nat :=
  fun s =>
    let id := next_timer (tk s) in
    (Ok id,
     set_tk (tk_set_next_timer (S id)
               (tk_set_pending (pending (tk s) ++ [mkTimer id ms cb]) (tk s)))
            s).

(** [self.root.after_cancel(id)] *)
Definition after_cancel (id : nat) : M unit :=
  update_tk (fun t =>
    tk_set_pending (filter (fun x => bool_decide (t_id x <> id)) (pending t)) t).

(** [messagebox.showerror(title, message)] *)
Definition showerror (title message : string) : M unit :=
  update_tk (fun t => tk_set_dialogs (dialogs t ++ [(title, message)]) t).

(** [w.destroy()] when [w.winfo_exists()] *)
Definition destroy (win : nat) : M unit :=
  update_tk (fun t => tk_set_toplevels (delete win (toplevels t)) t).

Fixpoint destroy_all (wins : list nat) : M unit :=
  match wins with
  | [] => ret tt
  | w :: rest => do! destroy w in destroy_all rest
  end.

(** *** Idle polling and the timers *)

Definition schedule_idle_check : M unit :=
  let! job := gets idle_check_job in
  do! match job with
      | Some id => after_cancel id
      | None => ret tt
      end in
  let! id := after 1000 cb_check_idle in
  modify (set_idle_check_job (Some id)).

Definition schedule_slideshow : M unit :=
  let! job := gets slideshow_job in
  do! match job with
      | Some id => after_cancel id
      | None => ret tt
      end in
  let! interval := gets (fun s => slideshow_interval (config s)) in
  let interval_ms := Z.max 1 interval * 1000 in
  let! id := after interval_ms cb_next_slide in
  modify (set_slideshow_job (Some id)).

Definition schedule_clock_overlay : M unit :=
  let! job := gets clock_job in
  do! match job with
      | Some id => after_cancel id
      | None => ret tt
      end in
  let! id := after 1000 cb_update_clock_overlay in
  modify (set_clock_job (Some id)).

(** *** Rendering on the surfaces *)

(** [label.configure(image="", text="", bg=bg); label.image = None] *)
Definition blank (bg : string) (l : Label) : Label :=
  {| l_image := None; l_text := ""; l_bg := bg;
     l_fg := l_fg l; l_font := l_font l |}.

(** [label.configure(image=photo, text="", bg=bg); label.image = photo] *)
Definition show (photo : Image) (bg : string) (l : Label) : Label :=
  {| l_image := Some photo; l_text := ""; l_bg := bg;
     l_fg := l_fg l; l_font := l_font l |}.

Definition blank_all (bg : string) (labels : list (Label * Monitor))
    : list (Label * Monitor) :=
  map (fun lm => (blank bg (fst lm), snd lm)) labels.

(** The loop of lines 514-528.  A frame that raises stops the loop; the
    labels before it keep their new image. *)
Fixpoint paint_labels (base_img : Image) (scale_mode bg : string)
    (labels : list (Label * Monitor)) : Res unit * list (Label * Monitor) :=
  match labels with
  | [] => (Ok tt, [])
  | (label, mon) :: rest =>
      match render_frame base_img (mon_width mon) (mon_height mon)
                         scale_mode bg with
      | Raise e => (Raise e, labels)
      | Ok final =>
          let '(r, rest') := paint_labels base_img scale_mode bg rest in
          (r, (show final bg label, mon) :: rest')
      end
  end.

Definition show_current_image_on_all (env : Env) : M unit :=
  fun s =>
    if negb (saver_active s) || bool_decide (current_images s = []) then
      (Ok tt, s)
    else
      match py_index (current_images s) (slideshow_index s) with
      | Raise e => (Raise e, s)
      | Ok path =>
          let bg := background (config s) in
          let scale_mode := scale_mode (config s) in
          match (if background_only s then None else path) with
          | None => (Ok tt, set_saver_labels (blank_all bg (saver_labels s)) s)
          | Some p =>
              match open_image_safe env p with
              | None =>
                  (Ok tt, set_saver_labels (blank_all bg (saver_labels s)) s)
              | Some base_img =>
                  let '(r, labels) :=
                    paint_labels base_img scale_mode bg (saver_labels s) in
                  (r, set_saver_labels labels s)
              end
          end
      end.

Definition next_slide (env : Env) : M unit :=
  let! active := gets saver_active in
  if negb active then ret tt
  else
    let! index := gets slideshow_index in
    let! n := gets (fun s => Z.of_nat (length (current_images s))) in
    let! index' := lift (py_mod (index + 1) n) in
    do! modify (set_slideshow_index index') in
    do! show_current_image_on_all env in
    if 1 <? n then schedule_slideshow else ret tt.

Definition update_clock_overlay (env : Env) : M unit :=
  let! s := gets (fun s => s) in
  if negb (saver_active s)
     || negb (background_only s && clock_overlay (config s))
  then ret tt
  else
    let bg := background (config s) in
    let now := strftime env in
    let font := ("Segoe UI", 48, "bold") in
    do! modify (set_saver_labels
          (map (fun lm =>
                  ({| l_image := l_image (fst lm); l_text := now; l_bg := bg;
                      l_fg := "#FFFFFF"; l_font := Some font |}, snd lm))
               (saver_labels s))) in
    schedule_clock_overlay.

(** *** Exit *)

Definition exit_screensaver : M unit :=
  let! active := gets saver_active in
  if negb active then ret tt
  else
    let! job := gets slideshow_job in
    do! match job with
        | Some id => do! after_cancel id in modify (set_slideshow_job None)
        | None => ret tt
        end in
    let! job := gets clock_job in
    do! match job with
        | Some id => do! after_cancel id in modify (set_clock_job None)
        | None => ret tt
        end in
    let! wins := gets saver_windows in
    do! destroy_all wins in
    do! modify (set_saver_windows []) in
    do! modify (set_saver_labels []) in
    do! modify (set_saver_active false) in
    let! has_tray := gets tray in
    if negb has_tray then
      let! wm := gets (fun s => root_wm (tk s)) in
      match wm with
      | wm_normal => ret tt
      | _ => update_tk (tk_set_root_wm wm_normal)
      end
    else ret tt.

(** *** Pointer motion *)

(** The settle guard of line 556:
    [(time.time() - self.activated_at) < 0.2]. *)
Definition settling (env : Env) (s : App) : bool :=
  PyFloat.ltb (PyFloat.sub (time_time env) (activated_at s)) PyFloat.c_0_2.

Definition on_mouse_motion (env : Env) (win : nat) (x_root y_root : Z)
    : M unit :=
  let! s := gets (fun s => s) in
  if negb (saver_active s) then ret tt
  else
    let thr := mouse_move_exit_pixels (config s) in
    if settling env s then ret tt
    else
      match activated_mouse_positions s !! win with
      | Some (Some (ox, oy)) =>
          let dx := Z.abs (x_root - ox) in
          let dy := Z.abs (y_root - oy) in
          if (dx >=? thr) || (dy >=? thr) then exit_screensaver else ret tt
      | _ =>
          modify (set_activated_mouse_positions
                    (<[win := Some (x_root, y_root)]>
                       (activated_mouse_positions s)))
      end.

(** *** Activation *)

(** The dict that [self.config.update] receives (lines 356-366); [None]
    when one of the two [int(...)] raises ValueError, in which case the
    configuration is left as it was. *)
Definition read_widgets (w : Widgets) (c : Config) : option Config :=
  match timeout_entry w, slide_entry w with
  | Some timeout, Some interval =>
      Some {| mode := mode_var w;
              image_path := path_entry w;
              timeout_seconds := timeout;
              slideshow_interval := interval;
              scale_mode := scale_var w;
              background := bg_preview w;
              shuffle := shuffle_var w;
              mouse_move_exit_pixels := mouse_move_exit_pixels c;
              allow_blank_single := allow_blank_var w;
              clock_overlay := clock_overlay_var w;
              start_in_tray := start_in_tray c |}
  | _, _ => None
  end.

(** The window that one iteration of the monitor loop builds: the
    attributes of lines 416-420 and 432-434, and the [bind] calls of
    lines 422-425 and 436-438 in order. *)
Definition saver_window (bg : string) (mon : Monitor) : Window :=
  let b := bind_event "<Key>" h_exit_screensaver [] in
  let b := bind_event "<Any-KeyPress>" h_exit_screensaver b in
  let b := bind_event "<Any-ButtonPress>" h_exit_screensaver b in
  let b := bind_event "<Motion>" h_on_mouse_motion b in
  let b := bind_event "<Any-KeyPress>" h_exit_screensaver b in
  let b := bind_event "<Any-ButtonPress>" h_exit_screensaver b in
  let b := bind_event "<Motion>" h_on_mouse_motion b in
  {| w_overrideredirect := true;
     w_topmost := true;
     w_cursor := "none";
     w_bg := bg;
     w_geometry := Some mon;
     w_bindings := b |}.

(** One iteration of [for mon in get_all_monitors()] (lines 414-455). *)
Definition create_window (env : Env) (mon : Monitor) : M unit :=
  let! bg := gets (fun s => background (config s)) in
  let! win := gets (fun s => next_window (tk s)) in
  do! update_tk (fun t =>
        tk_set_next_window (S win)
          (tk_set_toplevels (<[win := saver_window bg mon]> (toplevels t)) t)) in
  let label := {| l_image := None; l_text := ""; l_bg := bg;
                  l_fg := ""; l_font := None |} in
  do! modify (fun s =>
        set_activated_mouse_positions
          (<[win := winfo_pointer env]> (activated_mouse_positions s)) s) in
  do! modify (fun s => set_saver_windows (saver_windows s ++ [win]) s) in
  modify (fun s => set_saver_labels (saver_labels s ++ [(label, mon)]) s).

Fixpoint create_windows (env : Env) (mons : list Monitor) : M unit :=
  match mons with
  | [] => ret tt
  | mon :: rest => do! create_window env mon in create_windows env rest
  end.

(** Lines 460-464: the slideshow timer for several pictures, else the
    clock timer for a bare background with the overlay switched on. *)
Definition schedule_timers : M unit :=
  let! s := gets (fun s => s) in
  if negb (background_only s) && (1 <? Z.of_nat (length (current_images s)))
  then schedule_slideshow
  else if background_only s && clock_overlay (config s)
  then schedule_clock_overlay
  else ret tt.

(** Lines 396-464: what [activate_screensaver] does once the image list is
    resolved. *)
Definition start_session (env : Env) (preview : bool)
    (images : list (option string)) : M unit :=
  do! modify (set_current_images images) in
  do! modify (set_slideshow_index 0) in
  do! (if negb preview then
         let! has_tray := gets tray in
         if has_tray then update_tk (tk_set_root_wm wm_withdrawn)
         else update_tk (tk_set_root_wm wm_iconic)
       else ret tt) in
  do! modify (set_saver_active true) in
  do! modify (set_saver_windows []) in
  do! modify (set_saver_labels []) in
  do! modify (set_activated_at (time_time env)) in
  do! modify (set_activated_mouse_positions ∅) in
  do! create_windows env (get_all_monitors env) in
  do! show_current_image_on_all env in
  schedule_timers.

Definition activate_screensaver (env : Env) (preview : bool) : M unit :=
  let! active := gets saver_active in
  if active then ret tt
  else
    do! update_tk (fun t =>
          tk_set_root_bindings
            (bind_event "<Any-KeyPress>" h_exit_screensaver (root_bindings t))
            t) in
    let! s := gets (fun s => s) in
    match read_widgets (widgets s) (config s) with
    | None =>
        showerror "오류" "숫자 항목(대기 시간, 슬라이드쇼 간격)을 확인하세요."
    | Some cfg =>
        do! modify (set_config cfg) in
        let mode := mode cfg in
        let src := image_path cfg in
        do! modify (set_background_only false) in
        if String.eqb mode "single" then
          if negb (String.eqb src "") && isfile (fs env) src then
            start_session env preview [Some src]
          else if allow_blank_single cfg then
            do! modify (set_background_only true) in
            start_session env preview [None]
          else
            showerror "오류" "유효한 이미지 파일을 선택하세요."
        else
          let files := list_images_in_folder (fs env) src in
          if bool_decide (files = []) then
            showerror "오류" "폴더에 표시할 이미지가 없습니다."
          else
            let files :=
              if shuffle cfg then random_shuffle env files else files in
            start_session env preview (map Some files)
    end.

Definition check_idle (env : Env) : M unit :=
  finally
    (let! active := gets saver_active in
     if negb active then
       let idle := get_idle_seconds env in
       let! timeout := gets (fun s => timeout_seconds (config s)) in
       if (timeout >? 0) && PyFloat.ge_int idle timeout
       then activate_screensaver env false
       else ret tt
     else ret tt)
    schedule_idle_check.

(** *** The event loop: a timer that fires, an event that arrives *)

Definition run_callback (env : Env) (cb : Callback) : M unit :=
  match cb with
  | cb_check_idle => check_idle env
  | cb_next_slide => next_slide env
  | cb_update_clock_overlay => update_clock_overlay env
  end.

(** The timer [id] expires: it leaves the pending set, then its callback
    runs. *)
Definition fire_timer (env : Env) (id : nat) : M unit :=
  let! timers := gets (fun s => pending (tk s)) in
  match find (fun x => bool_decide (t_id x = id)) timers with
  | None => ret tt
  | Some t =>
      do! after_cancel id in
      run_callback env (t_callback t)
  end.

Inductive Event : Type :=
| ev_key
| ev_button
| ev_motion (x_root y_root : Z).

Definition class_of (ev : Event) : EventClass :=
  match ev with
  | ev_key => KeyPress
  | ev_button => ButtonPress
  | ev_motion _ _ => Motion
  end.

(** An input event reaches the saver window [win]: the handler bound to
    its class runs. *)
Definition deliver (env : Env) (win : nat) (ev : Event) : M unit :=
  let! tops := gets (fun s => toplevels (tk s)) in
  match tops !! win with
  | None => ret tt
  | Some w =>
      match binding_of (class_of ev) (w_bindings w) with
      | None => ret tt
      | Some h_exit_screensaver => exit_screensaver
      | Some h_on_mouse_motion =>
          match ev with
          | ev_motion x_root y_root => on_mouse_motion env win x_root y_root
          | _ => ret tt
          end
      end
  end.

(** [win] is one of the session's surfaces: its handle is in
    [saver_windows] and the live toplevel behind it is a window built by
    the monitor loop. *)
Definition is_surface (s : App) (win : nat) : Prop :=
  win ∈ saver_windows s /\
  exists bg mon, toplevels (tk s) !! win = Some (saver_window bg mon).

(* ===================================================================== *)
(** ** Notions used in the statements                                     *)
(* ===================================================================== *)

(** The method [c] leaves the observation [f] of the object state as it
    was, whether it returns or raises. *)
Definition keeps {A B : Type} (f : App -> B) (c : M A) : Prop :=
  forall s, f (snd (c s)) = f s.

(** What a session is about: the configuration in force, whether the
    saver is up, and the slideshow. *)
Definition core (s : App) : Config * bool * bool * list (option string) * Z :=
  (config s, saver_active s, background_only s, current_images s,
   slideshow_index s).

(** The surfaces of a session and their input baselines. *)
Definition handles (s : App)
    : list nat * gmap nat Window * gmap nat (option (Z * Z)) * float :=
  (saver_windows s, toplevels (tk s), activated_mouse_positions s,
   activated_at s).

(** The object state after lines 396-412 of [activate_screensaver]: the
    image list is stored, the settings window hidden unless previewing,
    the session marked active and its containers emptied. *)
Definition session_setup (env : Env) (preview : bool)
    (images : list (option string)) (s : App) : App :=
  let s := set_slideshow_index 0 (set_current_images images s) in
  let s :=
    if negb preview then
      set_tk (tk_set_root_wm (if tray s then wm_withdrawn else wm_iconic)
                             (tk s)) s
    else s in
  set_activated_mouse_positions ∅
    (set_activated_at (time_time env)
       (set_saver_labels []
          (set_saver_windows []
             (set_saver_active true s)))).

(** Every handle in [saver_windows] is a surface. *)
Definition surfaces_armed (s : App) : Prop :=
  forall win, win ∈ saver_windows s -> is_surface s win.

(** The object state after lines 352-375 of [activate_screensaver]: the
    root key binding is in place, the configuration holds what the form
    shows, and [background_only] is cleared. *)
Definition refreshed (cfg : Config) (s : App) : App :=
  set_background_only false
    (set_config cfg
       (set_tk (tk_set_root_bindings
                  (bind_event "<Any-KeyPress>" h_exit_screensaver
                              (root_bindings (tk s)))
                  (tk s)) s)).

(** Activation cannot resolve an image set under the configuration [cfg]:
    single mode without a valid file and without leave to run blank, or
    folder mode with nothing to list. *)
Definition no_image_set (env : Env) (cfg : Config) : Prop :=
  (mode cfg = "single" /\
   (image_path cfg = "" \/ isfile (fs env) (image_path cfg) = false) /\
   allow_blank_single cfg = false)
  \/
  (mode cfg <> "single" /\
   list_images_in_folder (fs env) (image_path cfg) = []).




(** The timer that [schedule_slideshow] arms in the state [s]. *)
Definition slideshow_timer (s : App) : Timer :=
  {| t_id := next_timer (tk s);
     t_ms := Z.max 1 (slideshow_interval (config s)) * 1000;
     t_callback := cb_next_slide |}.

(** The scaling step of [resize_image] goes through: nothing to scale
    ([stretch], or a source with a zero side), or the scaled size is
    computed without a float error and is at least 1x1, which is what
    [resize] accepts. *)
Definition scalable (img : Image) (W H : Z) (mode : string) : bool :=
  String.eqb mode "stretch" || (width img =? 0) || (height img =? 0)
  || match scaled_size
             (if String.eqb mode "fit" then PyFloat.min else PyFloat.max)
             (width img) (height img) W H with
     | Ok (nw, nh) => (1 <=? nw) && (1 <=? nh)
     | Raise _ => false
     end.

(** The pixel shows the picture (it is neither fill colour nor padding). *)
Definition is_content (p : Pixel) : bool :=
  match p with
  | Content _ _ => true
  | _ => false
  end.

(** The result is not a ZeroDivisionError. *)
Definition safe {A : Type} (r : Res A) : Prop := r <> Raise ZeroDivisionError.

(* ===================================================================== *)
(** ** A sample installation                                              *)
(* ===================================================================== *)

(** A folder of pictures, two monitors and a settings form, used to run
    the definitions above on concrete inputs. *)
Module Sample.

Definition pics : FileSystem :=
  {| isdir := fun p => String.eqb p "pics";
     isfile := fun p => negb (String.eqb p "pics/old");
     listdir := fun p =>
       if String.eqb p "pics"
       then ["b.png"; "notes.txt"; "a.JPG"; "old"; "c.webp"]
       else [];
     join := fun a b => (a ++ "/" ++ b)%string |}.

(** [time.time()] at activation, 0.125 s later and 1 s later. *)
Definition t_start : float :=
  binary_normalize PyFloat.prec PyFloat.emax 1700000000 0 false.
Definition t_settling : float :=
  binary_normalize PyFloat.prec PyFloat.emax (1700000000 * 8 + 1) (-3) false.
Definition t_later : float :=
  binary_normalize PyFloat.prec PyFloat.emax 1700000001 0 false.

Definition world (now idle : float) : Env :=
  {| fs := pics;
     open_image_safe := fun _ => Some (PIL.decoded 3280 2460);
     time_time := now;
     get_idle_seconds := idle;
     get_all_monitors := [mkMonitor 0 0 1920 1080; mkMonitor 1920 0 1280 1024];
     winfo_pointer := Some (100, 200);
     random_shuffle := @rev string;
     random_shuffle_perm := fun l => Permutation_sym (Permutation_rev l);
     strftime := "12:00:00" |}.

Definition env : Env := world t_start (S754_zero false).
Definition env_settling : Env := world t_settling (S754_zero false).
Definition env_later : Env := world t_later (S754_zero false).

Definition form (mode path : string) (allow_blank : bool) : Widgets :=
  {| mode_var := mode;
     path_entry := path;
     timeout_entry := Some 300;
     slide_entry := Some 10;
     scale_var := "fill";
     bg_preview := "#000000";
     shuffle_var := false;
     allow_blank_var := allow_blank;
     clock_overlay_var := false |}.

(** The object as [__init__] leaves it, with the form filled as given. *)
Definition fresh (w : Widgets) : App :=
  {| config := default_config;
     saver_active := false;
     background_only := false;
     saver_windows := [];
     saver_labels := [];
     current_images := [];
     slideshow_index := 0;
     slideshow_job := None;
     idle_check_job := Some 0%nat;
     clock_job := None;
     activated_mouse_positions := ∅;
     activated_at := S754_zero false;
     tray := false;
     widgets := w;
     tk := {| root_wm := wm_normal;
              root_bindings := [];
              toplevels := ∅;
              next_window := 0;
              pending := [mkTimer 0 1000 cb_check_idle];
              next_timer := 1;
              dialogs := [] |} |}.

Definition idle_app : App := fresh (form "folder" "pics" false).

(** The same, with idle activation switched off ([timeout_seconds = 0]). *)
Definition never_idle : App :=
  set_config
    {| mode := "folder"; image_path := "pics"; timeout_seconds := 0;
       slideshow_interval := 10; scale_mode := "fill";
       background := "#000000"; shuffle := false;
       mouse_move_exit_pixels := 10; allow_blank_single := false;
       clock_overlay := false; start_in_tray := false |}
    idle_app.

(** The platform reports [n] seconds without input. *)
Definition idle_for (n : Z) : Env :=
  world t_start (binary_normalize PyFloat.prec PyFloat.emax n 0 false).

(** Single mode, no file chosen, blank sessions not allowed. *)
Definition no_picture : App := fresh (form "single" "" false).

(** The slideshow over the three pictures of [pics], just activated. *)
Definition slideshow : App :=
  snd (activate_screensaver env false idle_app).

End Sample.

(* ===================================================================== *)
(** ** Platform queries (module level)                                    *)
(* ===================================================================== *)

(** A Win32 [RECT], as the monitor callback receives it. *)
Record RECT : Type := mkRECT {
  rc_left : Z;
  rc_top : Z;
  rc_right : Z;
  rc_bottom : Z
}.

(** What the host answers to the queries of lines 62-124: whether
    [platform.system()] is Windows; [GetLastInputInfo] ([dwTime], or [None]
    when the call fails); [GetTickCount()]; the rectangles that
    [EnumDisplayMonitors] passes to the callback; the screen size that
    Tk reports. *)
Record Host : Type := mkHost {
  IS_WINDOWS : bool;
  GetLastInputInfo : option Z;
  GetTickCount : Z;
  EnumDisplayMonitors : list RECT;
  winfo_screenwidth : Z;
  winfo_screenheight : Z
}.

Module Query.

(** The literals [0.0] and [1000.0]. *)
Definition c_0 : float := S754_zero false.
Definition c_1000 : float :=
  binary_normalize PyFloat.prec PyFloat.emax 1000 0 false.

(** [idle_ms / 1000.0], an int by a float. *)
Definition get_idle_seconds_windows (h : Host) : Res float :=
  match GetLastInputInfo h with
  | None => Ok c_0
  | Some dwTime =>
      let tick_count := GetTickCount h in
      let idle_ms := tick_count - dwTime in
      let? x := PyFloat.of_int idle_ms in
      Ok (SFdiv PyFloat.prec PyFloat.emax x c_1000)
  end.

Definition enum_monitors_windows (h : Host) : list Monitor :=
  map (fun r =>
         {| mon_left := rc_left r; mon_top := rc_top r;
            mon_width := rc_right r - rc_left r;
            mon_height := rc_bottom r - rc_top r |})
      (EnumDisplayMonitors h).

Definition get_all_monitors (h : Host) : list Monitor :=
  let fallback :=
    [{| mon_left := 0; mon_top := 0;
        mon_width := winfo_screenwidth h;
        mon_height := winfo_screenheight h |}] in
  if IS_WINDOWS h then
    match enum_monitors_windows h with
    | [] => fallback
    | mons => mons
    end
  else fallback.

Definition get_idle_seconds (h : Host) : Res float :=
  if IS_WINDOWS h then get_idle_seconds_windows h else Ok c_0.

End Query.

(* ===================================================================== *)
(** ** ScreenSaverApp: construction, the settings window, the event loop  *)
(* ===================================================================== *)

(** [__init__] (lines 167-204): [cfg] is what [load_config] returned,
    [form] what the freshly built form reads, [has_tray] whether
    [setup_tray_async] got a tray icon. *)
Definition init (cfg : Config) (form : Widgets) (has_tray : bool) : App :=
  let s :=
    {| config := cfg;
       saver_active := false;
       background_only := false;
       saver_windows := [];
       saver_labels := [];
       current_images := [];
       slideshow_index := 0;
       slideshow_job := None;
       idle_check_job := None;
       clock_job := None;
       activated_mouse_positions := ∅;
       activated_at := S754_zero false;
       tray := has_tray;
       widgets := form;
       tk := {| root_wm :=
                  if start_in_tray cfg then
                    if has_tray then wm_withdrawn else wm_iconic
                  else wm_normal;
                root_bindings := [];
                toplevels := ∅;
                next_window := 0;
                pending := [];
                next_timer := 0;
                dialogs := [] |} |} in
  snd (schedule_idle_check s).

Definition on_hide_to_tray : M unit :=
  let! has_tray := gets tray in
  if has_tray then update_tk (tk_set_root_wm wm_withdrawn)
  else update_tk (tk_set_root_wm wm_iconic).

(** [save_config] (lines 305-327), with the value of [start_in_tray_var].
    The result is the document written to the configuration file, [None]
    when a number does not parse and nothing is written.  (The closing
    info box is not an error dialog and is not recorded.) *)
Definition save_config (start_in_tray_var : bool) : M (option Config) :=
  let! s := gets (fun s => s) in
  match timeout_entry (widgets s), slide_entry (widgets s) with
  | Some timeout, Some interval =>
      let cfg :=
        {| mode := mode_var (widgets s);
           image_path := path_entry (widgets s);
           timeout_seconds := timeout;
           slideshow_interval := interval;
           scale_mode := scale_var (widgets s);
           background := bg_preview (widgets s);
           shuffle := shuffle_var (widgets s);
           mouse_move_exit_pixels := mouse_move_exit_pixels (config s);
           allow_blank_single := allow_blank_var (widgets s);
           clock_overlay := clock_overlay_var (widgets s);
           start_in_tray := start_in_tray_var |} in
      do! modify (set_config cfg) in
      ret (Some cfg)
  | _, _ =>
      do! showerror "오류" "숫자 항목(대기 시간, 슬라이드쇼 간격)을 확인하세요." in
      ret None
  end.

(** A key press that reaches the root window runs what is bound there
    (line 352 binds [exit_screensaver]). *)
Definition deliver_root : M unit :=
  let! b := gets (fun s => root_bindings (tk s)) in
  match binding_of KeyPress b with
  | Some h_exit_screensaver => exit_screensaver
  | _ => ret tt
  end.

Definition set_widgets (v : Widgets) (s : App) : App :=
  {| config := config s; saver_active := saver_active s;
     background_only := background_only s; saver_windows := saver_windows s;
     saver_labels := saver_labels s; current_images := current_images s;
     slideshow_index := slideshow_index s; slideshow_job := slideshow_job s;
     idle_check_job := idle_check_job s; clock_job := clock_job s;
     activated_mouse_positions := activated_mouse_positions s;
     activated_at := activated_at s; tray := tray s; widgets := v;
     tk := tk s |}.

(** What the event loop can dispatch: a timer that expires, an input
    event on a saver window, a key press on the root window, the two
    buttons and the tray entry that start the saver, closing the settings
    window, opening it from the tray, saving the form, and the user
    editing the form. *)
Inductive Action : Type :=
| timer_expires (id : nat)
| input_on (win : nat) (ev : Event)
| key_on_root
| start_saver (preview : bool)
| close_settings
| open_settings
| save_settings (start_in_tray_var : bool)
| edit_form (form : Widgets).

Definition perform (env : Env) (a : Action) : M unit :=
  match a with
  | timer_expires id => fire_timer env id
  | input_on win ev => deliver env win ev
  | key_on_root => deliver_root
  | start_saver preview => activate_screensaver env preview
  | close_settings => on_hide_to_tray
  | open_settings => update_tk (tk_set_root_wm wm_normal)
  | save_settings v => do! save_config v in ret tt
  | edit_form form => modify (set_widgets form)
  end.

(** The states the program can be in: the constructed object, and what
    any dispatched action leaves behind (also when its callback raises,
    which Tk reports and survives). *)
Inductive reachable : App -> Prop :=
| reachable_init cfg form has_tray : reachable (init cfg form has_tray)
| reachable_step env a s :
    reachable s -> reachable (snd (perform env a s)).

Global Instance Callback_eq_dec : EqDecision Callback.
Proof. solve_decision. Defined.

(** The job attribute that holds the timer of the callback [cb]. *)
Definition job_of (s : App) (cb : Callback) : option nat :=
  match cb with
  | cb_check_idle => idle_check_job s
  | cb_next_slide => slideshow_job s
  | cb_update_clock_overlay => clock_job s
  end.

(** A timer table, its counter and the job attributes fit together:
    every pending timer is the one that the job attribute of its callback
    names; every pending id and every id held in a job attribute was
    handed out by [after]; no id is pending twice; no two job attributes
    hold the same id. *)
Definition tidy (job : Callback -> option nat) (timers : list Timer)
    (next : nat) : Prop :=
  Forall (fun t => job (t_callback t) = Some (t_id t)) timers /\
  Forall (fun t => (t_id t < next)%nat) timers /\
  NoDup (map t_id timers) /\
  (forall cb id, job cb = Some id -> (id < next)%nat) /\
  (forall cb cb' id, job cb = Some id -> job cb' = Some id -> cb = cb').

Definition timers_tidy (s : App) : Prop :=
  tidy (job_of s) (pending (tk s)) (next_timer (tk s)).

(** The idle poll is armed. *)
Definition poll_pending (s : App) : Prop :=
  exists t, t ∈ pending (tk s) /\ t_callback t = cb_check_idle.

(** The live toplevels are exactly the session's handles, one label per
    handle; an active session has pictures and an index among them; an
    idle one has no surface and no slideshow or clock job. *)
Definition session_sound (s : App) : Prop :=
  dom (toplevels (tk s)) = list_to_set (saver_windows s) /\
  length (saver_labels s) = length (saver_windows s) /\
  (saver_active s = true ->
   current_images s <> [] /\
   0 <= slideshow_index s < Z.of_nat (length (current_images s)) /\
   surfaces_armed s) /\
  (saver_active s = false ->
   saver_windows s = [] /\ slideshow_job s = None /\ clock_job s = None).

(** [after_cancel(job)] when the job attribute is set. *)
Definition cancel (job : option nat) (timers : list Timer) : list Timer :=
  match job with
  | Some id => filter (fun x => bool_decide (t_id x <> id)) timers
  | None => timers
  end.

(** The timer attributes and the toolkit's timer table. *)
Definition timers (s : App)
    : list Timer * nat * (option nat * option nat * option nat) :=
  (pending (tk s), next_timer (tk s),
   (slideshow_job s, clock_job s, idle_check_job s)).

(** The label that the monitor loop packs in a new window. *)
Definition new_label (bg : string) : Label :=
  {| l_image := None; l_text := ""; l_bg := bg; l_fg := ""; l_font := None |}.

(** The toplevel table after the monitor loop has built a window for each
    of [mons], the first with the handle [win]. *)
Fixpoint put_windows (bg : string) (mons : list Monitor) (win : nat)
    (m : gmap nat Window) : gmap nat Window :=
  match mons with
  | [] => m
  | mon :: rest => put_windows bg rest (S win) (<[win := saver_window bg mon]> m)
  end.

(** The baselines after the loop has recorded the pointer for [n] windows,
    the first with the handle [win]. *)
Fixpoint put_baselines (pointer : option (Z * Z)) (n : nat) (win : nat)
    (m : gmap nat (option (Z * Z))) : gmap nat (option (Z * Z)) :=
  match n with
  | O => m
  | S n' => put_baselines pointer n' (S win) (<[win := pointer]> m)
  end.

(** The timers that [schedule_clock_overlay] and [schedule_idle_check] arm
    in the state [s]. *)
Definition clock_timer (s : App) : Timer :=
  {| t_id := next_timer (tk s); t_ms := 1000;
     t_callback := cb_update_clock_overlay |}.

Definition idle_timer (s : App) : Timer :=
  {| t_id := next_timer (tk s); t_ms := 1000; t_callback := cb_check_idle |}.

(** What [session_sound] looks at. *)
Definition session_view (s : App) :=
  (core s, handles s, length (saver_labels s),
   (slideshow_job s, clock_job s)).

(** The invariant of the event loop. *)
Definition well_formed (s : App) : Prop :=
  timers_tidy s /\ session_sound s.

(* ===================================================================== *)
(** * Properties                                                          *)
(* ===================================================================== *)

(** Splits the object state into its attributes, so that reads and writes
    of attributes compute. *)
Ltac open_app s :=
  destruct s as [s_config s_active s_bonly s_wins s_labels s_images s_index
                 s_sjob s_ijob s_cjob s_pos s_at s_tray s_form s_tk];
  destruct s_tk as [k_wm k_rb k_tops k_nw k_pend k_nt k_dlg]; cbn in *.

(** Runs the monadic plumbing. *)
Ltac run :=
  cbv beta iota delta
    [bind ret gets modify lift update_tk after after_cancel showerror
     destroy finally];
  cbn.

Section Frames.

Context {B : Type} (f : App -> B).

Lemma keeps_ret {A} (a : A) : keeps f (ret a).
Proof. intros s. reflexivity. Qed.

Lemma keeps_gets {A} (g : App -> A) : keeps f (gets g).
Proof. intros s. reflexivity. Qed.

Lemma keeps_lift {A} (r : Res A) : keeps f (lift r).
Proof. intros s. reflexivity. Qed.

Lemma keeps_bind {A C} (c : M A) (k : A -> M C) :
  keeps f c -> (forall a, keeps f (k a)) -> keeps f (bind c k).
Proof.
  intros Hc Hk s. unfold bind. specialize (Hc s).
  destruct (c s) as [[a|e] s']; cbn in *.
  - now rewrite Hk.
  - assumption.
Qed.

Lemma keeps_modify (g : App -> App) :
  (forall s, f (g s) = f s) -> keeps f (modify g).
Proof. intros H s. apply H. Qed.

Lemma keeps_finally {A} (c : M A) (h : M unit) :
  keeps f c -> keeps f h -> keeps f (finally c h).
Proof.
  intros Hc Hh s. unfold finally. specialize (Hc s).
  destruct (c s) as [r s']. specialize (Hh s').
  destruct (h s') as [[[]|e] s'']; cbn in *; congruence.
Qed.

Lemma keeps_proj {A C} (g : B -> C) (c : M A) :
  keeps f c -> keeps (fun s => g (f s)) c.
Proof. intros H s. cbn. now rewrite H. Qed.

End Frames.

(** Breaks a method into its calls and reduces [keeps] to the writes. *)
Ltac frame_write :=
  let s := fresh "s" in intros s; open_app s; reflexivity.

Ltac frame :=
  repeat first
    [ apply keeps_ret | apply keeps_gets | apply keeps_lift
    | apply keeps_bind; [| intros ?]
    | match goal with
      | |- keeps _ (match ?x with _ => _ end) => destruct x
      | |- keeps _ (if ?x then _ else _) => destruct x
      | |- keeps _ (modify _) => apply keeps_modify; frame_write
      | |- keeps _ (update_tk _) => apply keeps_modify; frame_write
      | |- keeps _ (after_cancel _) => apply keeps_modify; frame_write
      | |- keeps _ (showerror _ _) => apply keeps_modify; frame_write
      | |- keeps _ (after _ _) => frame_write
      end ].

Section SessionFrames.

Variable env : Env.

Lemma schedule_slideshow_keeps :
  keeps (fun s => (core s, handles s, saver_labels s)) schedule_slideshow.
Proof. unfold schedule_slideshow. frame. Qed.

Lemma schedule_clock_overlay_keeps :
  keeps (fun s => (core s, handles s, saver_labels s)) schedule_clock_overlay.
Proof. unfold schedule_clock_overlay. frame. Qed.

Lemma schedule_idle_check_keeps :
  keeps (fun s => (core s, handles s, saver_labels s)) schedule_idle_check.
Proof. unfold schedule_idle_check. frame. Qed.

(** Rendering writes the labels and nothing else. *)
Lemma show_current_image_on_all_labels s :
  exists labels,
    snd (show_current_image_on_all env s) = set_saver_labels labels s.
Proof.
  assert (Hid : s = set_saver_labels (saver_labels s) s)
    by (open_app s; reflexivity).
  unfold show_current_image_on_all.
  destruct (negb (saver_active s) || bool_decide (current_images s = []));
    [eexists; exact Hid|].
  destruct (py_index _ _) as [path|e]; [|eexists; exact Hid].
  destruct (if background_only s then None else path) as [p|];
    [|eexists; reflexivity].
  destruct (open_image_safe env p) as [img|]; [|eexists; reflexivity].
  destruct (paint_labels _ _ _ _) as [r labels]. eexists; reflexivity.
Qed.

Lemma show_current_image_on_all_keeps :
  keeps (fun s => (core s, handles s, tk s,
                   (slideshow_job s, clock_job s, idle_check_job s)))
        (show_current_image_on_all env).
Proof.
  intros s. destruct (show_current_image_on_all_labels s) as [l ->].
  open_app s. reflexivity.
Qed.

Lemma create_window_keeps mon : keeps core (create_window env mon).
Proof. unfold create_window. frame. Qed.

Lemma create_windows_keeps mons : keeps core (create_windows env mons).
Proof.
  induction mons as [|mon mons IH]; cbn [create_windows]; frame.
  apply IH.
Qed.

Lemma create_windows_returns mons s :
  fst (create_windows env mons s) = Ok tt.
Proof.
  revert s. induction mons as [|mon mons IH]; intros s; [reflexivity|].
  cbn [create_windows]. unfold bind at 1.
  replace (create_window env mon s)
    with (Ok tt, snd (create_window env mon s)) by reflexivity.
  apply IH.
Qed.

End SessionFrames.

Section Exit.

Lemma destroy_all_spec (wins : list nat) (s : App) :
  destroy_all wins s =
  (Ok tt,
   set_tk (tk_set_toplevels
             (foldl (fun m w => delete w m) (toplevels (tk s)) wins) (tk s))
          s).
Proof.
  revert s. induction wins as [|w wins IH]; intros s.
  - open_app s; reflexivity.
  - cbn [destroy_all]. unfold bind at 1. unfold destroy, update_tk, modify.
    rewrite IH. open_app s; reflexivity.
Qed.

Lemma exit_screensaver_idle (s : App) :
  saver_active s = false -> exit_screensaver s = (Ok tt, s).
Proof.
  intros H. unfold exit_screensaver, bind, gets. now rewrite H.
Qed.

(** Whatever the state, [exit_screensaver] returns normally and leaves
    the session inactive. *)
Lemma exit_screensaver_ends (s : App) :
  fst (exit_screensaver s) = Ok tt /\
  saver_active (snd (exit_screensaver s)) = false.
Proof.
  destruct (saver_active s) eqn:Ha.
  - open_app s. subst. unfold exit_screensaver. run.
    destruct s_sjob, s_cjob, s_tray; run; rewrite destroy_all_spec; cbn;
      try destruct k_wm; cbn; auto.
  - rewrite exit_screensaver_idle by assumption. auto.
Qed.

(** An exit from an active session destroys every saver window and
    forgets the handles, the labels and both timers. *)
Lemma exit_screensaver_tears_down (s : App) :
  saver_active s = true ->
  let s' := snd (exit_screensaver s) in
  saver_windows s' = [] /\ saver_labels s' = [] /\
  slideshow_job s' = None /\ clock_job s' = None /\
  toplevels (tk s') =
    foldl (fun m w => delete w m) (toplevels (tk s)) (saver_windows s).
Proof.
  intros Ha. open_app s. subst. unfold exit_screensaver. run.
  destruct s_sjob, s_cjob, s_tray; run; rewrite destroy_all_spec; cbn;
    try destruct k_wm; cbn; auto.
Qed.

End Exit.

Lemma activate_screensaver_active (env : Env) (preview : bool) (s : App) :
  saver_active s = true -> activate_screensaver env preview s = (Ok tt, s).
Proof.
  intros H. unfold activate_screensaver, bind, gets. now rewrite H.
Qed.

(** C4. Calling [exit_screensaver] while the session is idle, and calling
    [activate_screensaver] while it is active, both return at once: no
    exception, and the object state is exactly what it was. *)
Theorem idle_exit_and_active_activate_are_noops :
  forall (env : Env) (preview : bool) (s : App),
    (saver_active s = false -> exit_screensaver s = (Ok tt, s)) /\
    (saver_active s = true ->
     activate_screensaver env preview s = (Ok tt, s)).
Proof.
  intros env preview s. split.
  - apply exit_screensaver_idle.
  - apply activate_screensaver_active.
Qed.

Lemma idle_exit_and_active_activate_are_noops_witness :
  exit_screensaver Sample.idle_app = (Ok tt, Sample.idle_app) /\
  activate_screensaver Sample.env_later true Sample.slideshow
  = (Ok tt, Sample.slideshow).
Proof.
  split.
  - apply (proj1 (idle_exit_and_active_activate_are_noops
                    Sample.env false Sample.idle_app)).
    reflexivity.
  - apply (proj2 (idle_exit_and_active_activate_are_noops
                    Sample.env_later true Sample.slideshow)).
    vm_compute. reflexivity.
Defined.

Section Motion.

Variable env : Env.

Lemma on_mouse_motion_settling win x y s :
  settling env s = true -> on_mouse_motion env win x y s = (Ok tt, s).
Proof.
  unfold on_mouse_motion. intros H.
  unfold bind at 1. cbv beta iota delta [gets]. rewrite H.
  destruct (saver_active s); reflexivity.
Qed.

Lemma on_mouse_motion_origin win x y ox oy s :
  saver_active s = true ->
  settling env s = false ->
  activated_mouse_positions s !! win = Some (Some (ox, oy)) ->
  on_mouse_motion env win x y s =
  if (Z.abs (x - ox) >=? mouse_move_exit_pixels (config s))
     || (Z.abs (y - oy) >=? mouse_move_exit_pixels (config s))
  then exit_screensaver s else (Ok tt, s).
Proof.
  unfold on_mouse_motion. intros Ha Hs Ho.
  unfold bind at 1. cbv beta iota delta [gets]. rewrite Ha, Hs, Ho.
  cbn [negb]. now destruct (_ || _).
Qed.

End Motion.

(** C3. A motion event on a surface whose origin [(ox, oy)] is
    established, arriving after the settle guard, runs [exit_screensaver]
    (and so ends the session) if and only if [|x - ox| >= thr] or
    [|y - oy| >= thr], where [thr] is the configured
    [mouse_move_exit_pixels]; otherwise the handler changes nothing.  At
    threshold 10 a motion of 9 pixels along x does not exit, one of 10
    pixels does. *)
Theorem motion_exits_iff_threshold_reached :
  forall (env : Env) (win : nat) (x y ox oy : Z) (s : App),
    saver_active s = true ->
    settling env s = false ->
    activated_mouse_positions s !! win = Some (Some (ox, oy)) ->
    let thr := mouse_move_exit_pixels (config s) in
    let after_motion x y := on_mouse_motion env win x y s in
    (saver_active (snd (after_motion x y)) = false <->
     (thr <= Z.abs (x - ox) \/ thr <= Z.abs (y - oy))) /\
    (thr <= Z.abs (x - ox) \/ thr <= Z.abs (y - oy) ->
     after_motion x y = exit_screensaver s) /\
    (Z.abs (x - ox) < thr /\ Z.abs (y - oy) < thr ->
     after_motion x y = (Ok tt, s)) /\
    (thr = 10 ->
     after_motion (ox + 9) oy = (Ok tt, s) /\
     after_motion (ox + 10) oy = exit_screensaver s /\
     saver_active (snd (after_motion (ox + 10) oy)) = false).
Proof.
  intros env win x y ox oy s Ha Hs Ho thr after_motion.
  assert (Hstep : forall x y,
             after_motion x y =
             if (Z.abs (x - ox) >=? thr) || (Z.abs (y - oy) >=? thr)
             then exit_screensaver s else (Ok tt, s)).
  { intros. apply on_mouse_motion_origin; assumption. }
  assert (Hexit : forall x y,
             thr <= Z.abs (x - ox) \/ thr <= Z.abs (y - oy) ->
             after_motion x y = exit_screensaver s).
  { intros x0 y0 H. rewrite Hstep.
    destruct (Z.geb_spec (Z.abs (x0 - ox)) thr), (Z.geb_spec (Z.abs (y0 - oy)) thr);
      cbn; try reflexivity; lia. }
  assert (Hstay : forall x y,
             Z.abs (x - ox) < thr /\ Z.abs (y - oy) < thr ->
             after_motion x y = (Ok tt, s)).
  { intros x0 y0 H. rewrite Hstep.
    destruct (Z.geb_spec (Z.abs (x0 - ox)) thr), (Z.geb_spec (Z.abs (y0 - oy)) thr);
      cbn; try reflexivity; lia. }
  repeat split.
  - intros Hoff.
    destruct (Z_lt_le_dec (Z.abs (x - ox)) thr) as [Hx|Hx]; [|now left].
    destruct (Z_lt_le_dec (Z.abs (y - oy)) thr) as [Hy|Hy]; [|now right].
    rewrite (Hstay x y) in Hoff by (split; assumption). cbn in Hoff. congruence.
  - intros H. rewrite (Hexit x y H). apply exit_screensaver_ends.
  - apply Hexit.
  - apply Hstay.
  - apply Hstay. lia.
  - apply Hexit. lia.
  - rewrite Hexit by lia. apply exit_screensaver_ends.
Qed.

(** The surface [win] of the sample slideshow, one second after
    activation, pointer baseline (100, 200), threshold 10. *)
Lemma motion_exits_iff_threshold_reached_witness :
  on_mouse_motion Sample.env_later 1 109 200 Sample.slideshow
  = (Ok tt, Sample.slideshow) /\
  on_mouse_motion Sample.env_later 1 110 200 Sample.slideshow
  = exit_screensaver Sample.slideshow.
Proof.
  pose proof (motion_exits_iff_threshold_reached
                Sample.env_later 1 109 200 100 200 Sample.slideshow) as H.
  cbn zeta in H.
  destruct H as (_ & _ & _ & H); [vm_compute; reflexivity ..|].
  destruct (H ltac:(vm_compute; reflexivity)) as (H9 & H10 & _).
  split; [exact H9 | exact H10].
Defined.

Section Surfaces.

Variable env : Env.

Lemma saver_window_bindings bg mon :
  w_bindings (saver_window bg mon) =
  [(Motion, h_on_mouse_motion); (ButtonPress, h_exit_screensaver);
   (KeyPress, h_exit_screensaver)].
Proof. reflexivity. Qed.

Lemma deliver_key win s :
  is_surface s win -> deliver env win ev_key s = exit_screensaver s.
Proof.
  intros [_ (bg & mon & Hw)]. unfold deliver.
  unfold bind at 1. cbv beta iota delta [gets]. now rewrite Hw.
Qed.

Lemma deliver_button win s :
  is_surface s win -> deliver env win ev_button s = exit_screensaver s.
Proof.
  intros [_ (bg & mon & Hw)]. unfold deliver.
  unfold bind at 1. cbv beta iota delta [gets]. now rewrite Hw.
Qed.

Lemma deliver_motion win x y s :
  is_surface s win ->
  deliver env win (ev_motion x y) s = on_mouse_motion env win x y s.
Proof.
  intros [_ (bg & mon & Hw)]. unfold deliver.
  unfold bind at 1. cbv beta iota delta [gets]. now rewrite Hw.
Qed.

End Surfaces.

(** C7. While the settle guard holds (less than 0.2 s since activation), a
    motion event on a surface of the active session never exits, however
    far the pointer moved: the state is left as it is.  A key press or a
    pointer-button press on the same surface in the same window of time
    runs [exit_screensaver] and ends the session. *)
Theorem settle_guard_suppresses_motion_only :
  forall (env : Env) (win : nat) (s : App),
    saver_active s = true ->
    is_surface s win ->
    settling env s = true ->
    (forall x y, deliver env win (ev_motion x y) s = (Ok tt, s)) /\
    (deliver env win ev_key s = exit_screensaver s /\
     saver_active (snd (deliver env win ev_key s)) = false) /\
    (deliver env win ev_button s = exit_screensaver s /\
     saver_active (snd (deliver env win ev_button s)) = false).
Proof.
  intros env win s Ha Hw Hs. repeat split.
  - intros x y. rewrite deliver_motion by assumption.
    now apply on_mouse_motion_settling.
  - now apply deliver_key.
  - rewrite deliver_key by assumption. apply exit_screensaver_ends.
  - now apply deliver_button.
  - rewrite deliver_button by assumption. apply exit_screensaver_ends.
Qed.

Section Activation.

Variable env : Env.

Lemma schedule_timers_keeps :
  keeps (fun s => (core s, handles s, saver_labels s)) schedule_timers.
Proof.
  unfold schedule_timers. frame.
Qed.

Lemma start_session_steps preview images s :
  start_session env preview images s =
  bind (show_current_image_on_all env) (fun _ => schedule_timers)
       (snd (create_windows env (get_all_monitors env)
                            (session_setup env preview images s))).
Proof.
  unfold start_session, session_setup.
  pose proof (create_windows_returns env (get_all_monitors env)) as Hok.
  open_app s. destruct preview, s_tray; run;
    match goal with
    | |- context [create_windows env ?m ?x] =>
        specialize (Hok x); destruct (create_windows env m x) as [r s']
    end; cbn in *; subst r; reflexivity.
Qed.

Lemma start_session_core preview images s :
  core (snd (start_session env preview images s)) =
  (config s, true, background_only s, images, 0).
Proof.
  rewrite start_session_steps.
  assert (H : keeps core (bind (show_current_image_on_all env)
                               (fun _ => schedule_timers))).
  { apply keeps_bind; [|intros _].
    - apply (keeps_proj _ (fun p => fst (fst (fst p)))
               _ (show_current_image_on_all_keeps env)).
    - apply (keeps_proj _ (fun p => fst (fst p)) _ schedule_timers_keeps). }
  rewrite H, create_windows_keeps.
  open_app s. now destruct preview, s_tray.
Qed.

Lemma activate_screensaver_idle preview s cfg :
  saver_active s = false ->
  read_widgets (widgets s) (config s) = Some cfg ->
  activate_screensaver env preview s =
  let s0 := refreshed cfg s in
  if String.eqb (mode cfg) "single" then
    if negb (String.eqb (image_path cfg) "")
       && isfile (fs env) (image_path cfg)
    then start_session env preview [Some (image_path cfg)] s0
    else if allow_blank_single cfg
    then start_session env preview [None] (set_background_only true s0)
    else showerror "오류" "유효한 이미지 파일을 선택하세요." s0
  else
    let files := list_images_in_folder (fs env) (image_path cfg) in
    if bool_decide (files = []) then
      showerror "오류" "폴더에 표시할 이미지가 없습니다." s0
    else
      start_session env preview
        (map Some (if shuffle cfg then random_shuffle env files else files))
        s0.
Proof.
  intros Ha Hr. unfold activate_screensaver.
  unfold bind at 1. cbv beta iota delta [gets]. rewrite Ha.
  unfold bind at 1. cbv beta iota delta [update_tk modify].
  unfold bind at 1. cbv beta iota delta [gets].
  replace (widgets (set_tk _ s)) with (widgets s) by (open_app s; reflexivity).
  replace (config (set_tk _ s)) with (config s) by (open_app s; reflexivity).
  rewrite Hr. cbv zeta.
  unfold bind at 1. cbv beta iota delta [modify].
  destruct (String.eqb (mode cfg) "single").
  - destruct (negb _ && _); [reflexivity|].
    destruct (allow_blank_single cfg); reflexivity.
  - destruct (bool_decide _); reflexivity.
Qed.

End Activation.

Section Arming.

Variable env : Env.

Lemma surfaces_armed_handles s s' :
  handles s' = handles s -> surfaces_armed s -> surfaces_armed s'.
Proof.
  unfold handles, surfaces_armed, is_surface.
  intros H Hs win Hin. injection H as Hw Ht _ _.
  rewrite Hw in Hin. rewrite Hw, Ht. now apply Hs.
Qed.

Lemma create_window_armed mon s :
  surfaces_armed s -> surfaces_armed (snd (create_window env mon s)).
Proof.
  intros Hs. open_app s. unfold create_window. run.
  intros win Hin. unfold is_surface in *. cbn in *.
  split; [assumption|].
  destruct (decide (win = k_nw)) as [->|Hne].
  - rewrite lookup_insert_eq. eauto.
  - rewrite lookup_insert_ne by congruence.
    apply elem_of_app in Hin as [Hin|Hin].
    + destruct (Hs win Hin) as [_ H]. exact H.
    + apply list_elem_of_singleton in Hin. congruence.
Qed.

Lemma create_windows_armed mons s :
  surfaces_armed s -> surfaces_armed (snd (create_windows env mons s)).
Proof.
  revert s. induction mons as [|mon mons IH]; intros s Hs; [exact Hs|].
  cbn [create_windows]. unfold bind at 1.
  replace (create_window env mon s)
    with (Ok tt, snd (create_window env mon s)) by reflexivity.
  apply IH. now apply create_window_armed.
Qed.

Lemma start_session_armed preview images s :
  surfaces_armed (snd (start_session env preview images s)).
Proof.
  rewrite start_session_steps.
  assert (H : keeps handles (bind (show_current_image_on_all env)
                                  (fun _ => schedule_timers))).
  { apply keeps_bind; [|intros _].
    - apply (keeps_proj _ (fun p => snd (fst (fst p)))
               _ (show_current_image_on_all_keeps env)).
    - apply (keeps_proj _ (fun p => snd (fst p)) _ schedule_timers_keeps). }
  eapply surfaces_armed_handles; [apply H|].
  apply create_windows_armed.
  intros win Hin. exfalso.
  open_app s. destruct preview, s_tray; cbn in Hin;
    now apply elem_of_nil in Hin.
Qed.

(** An activation that brings the session up leaves every handle of
    [saver_windows] bound to a window of the monitor loop, and a
    non-empty image list. *)
Lemma activation_arms_surfaces preview s :
  saver_active s = false ->
  saver_active (snd (activate_screensaver env preview s)) = true ->
  surfaces_armed (snd (activate_screensaver env preview s)) /\
  current_images (snd (activate_screensaver env preview s)) <> [].
Proof.
  intros Ha.
  destruct (read_widgets (widgets s) (config s)) as [cfg|] eqn:Hr.
  - rewrite (activate_screensaver_idle env preview s cfg Ha Hr). cbv zeta.
    assert (Hstart : forall images s0,
               images <> [] ->
               surfaces_armed (snd (start_session env preview images s0)) /\
               current_images (snd (start_session env preview images s0))
               <> []).
    { intros images s0 Hne. split; [apply start_session_armed|].
      pose proof (start_session_core env preview images s0) as Hc.
      unfold core in Hc. injection Hc as _ _ _ Hi _. now rewrite Hi. }
    assert (Herr : forall title msg,
               saver_active (snd (showerror title msg (refreshed cfg s)))
               = true -> False).
    { intros title msg H. open_app s. cbn in H. congruence. }
    destruct (String.eqb (mode cfg) "single").
    + destruct (negb _ && _); [intros _; now apply Hstart|].
      destruct (allow_blank_single cfg); [intros _; now apply Hstart|].
      intros H. now apply Herr in H.
    + destruct (bool_decide_reflect
                  (list_images_in_folder (fs env) (image_path cfg) = []))
        as [He|Hne].
      * intros H. now apply Herr in H.
      * intros _. apply Hstart.
        destruct (shuffle cfg).
        -- intros He. apply (f_equal (@length (option string))) in He.
           rewrite length_map in He.
           rewrite (Permutation_length (random_shuffle_perm env _)) in He.
           destruct (list_images_in_folder _ _); [congruence|discriminate].
        -- destruct (list_images_in_folder _ _); [congruence|discriminate].
  - unfold activate_screensaver.
    unfold bind at 1. cbv beta iota delta [gets]. rewrite Ha.
    unfold bind at 1. cbv beta iota delta [update_tk modify].
    unfold bind at 1. cbv beta iota delta [gets].
    replace (widgets (set_tk _ s)) with (widgets s)
      by (open_app s; reflexivity).
    replace (config (set_tk _ s)) with (config s)
      by (open_app s; reflexivity).
    rewrite Hr. intros H. open_app s. cbn in H. congruence.
Qed.

End Arming.

(** C2. When activation cannot resolve an image set (single mode with no
    valid file and [allow_blank_single] off, or folder mode with an empty
    listing), [activate_screensaver] shows the error notice and returns:
    the session stays idle, no surface is created, no timer is started,
    and nothing of a session is left behind -- window handles, labels,
    input baselines, activation time, image list, index, timer handles
    and the settings window are all as before.  The state it returns is
    [refreshed cfg s] with the notice appended: beside the notice, only
    what precedes the resolution differs (the configuration holds the
    form's values, [background_only] is cleared, the root key binding is
    set). *)
Theorem activation_without_images_aborts :
  forall (env : Env) (preview : bool) (s : App) (cfg : Config),
    saver_active s = false ->
    read_widgets (widgets s) (config s) = Some cfg ->
    no_image_set env cfg ->
    exists message s',
      activate_screensaver env preview s = (Ok tt, s') /\
      s' = set_tk (tk_set_dialogs (dialogs (tk s) ++ [("오류", message)])
                                  (tk (refreshed cfg s)))
                  (refreshed cfg s) /\
      saver_active s' = false /\
      handles s' = handles s /\
      saver_labels s' = saver_labels s /\
      next_window (tk s') = next_window (tk s) /\
      pending (tk s') = pending (tk s) /\
      next_timer (tk s') = next_timer (tk s) /\
      (slideshow_job s', clock_job s', idle_check_job s')
      = (slideshow_job s, clock_job s, idle_check_job s) /\
      current_images s' = current_images s /\
      slideshow_index s' = slideshow_index s /\
      root_wm (tk s') = root_wm (tk s).
Proof.
  intros env preview s cfg Ha Hr Hno.
  rewrite (activate_screensaver_idle env preview s cfg Ha Hr). cbv zeta.
  destruct Hno as [(Hm & Hsrc & Hblank) | (Hm & Hfiles)].
  - rewrite Hm, Hblank. cbn [String.eqb].
    replace (String.eqb "single" "single") with true by reflexivity.
    assert (Hcond : negb (String.eqb (image_path cfg) "")
                    && isfile (fs env) (image_path cfg) = false).
    { destruct Hsrc as [-> | ->]; [reflexivity | apply andb_false_r]. }
    rewrite Hcond.
    do 2 eexists. split; [reflexivity|].
    open_app s. subst. repeat split; reflexivity.
  - apply String.eqb_neq in Hm. rewrite Hm. cbv zeta. rewrite Hfiles.
    rewrite bool_decide_eq_true_2 by reflexivity.
    do 2 eexists. split; [reflexivity|].
    open_app s. subst. repeat split; reflexivity.
Qed.

Lemma activation_without_images_aborts_witness :
  exists message s',
    activate_screensaver Sample.env false Sample.no_picture = (Ok tt, s') /\
    dialogs (tk s') = [("오류", message)] /\
    saver_active s' = false /\
    handles s' = handles Sample.no_picture /\
    pending (tk s') = pending (tk Sample.no_picture).
Proof.
  destruct (activation_without_images_aborts
              Sample.env false Sample.no_picture
              {| mode := "single"; image_path := ""; timeout_seconds := 300;
                 slideshow_interval := 10; scale_mode := "fill";
                 background := "#000000"; shuffle := false;
                 mouse_move_exit_pixels := 10; allow_blank_single := false;
                 clock_overlay := false; start_in_tray := false |})
    as (message & s' & Hrun & Hs' & Hidle & Hh & _ & _ & Hp & _).
  - reflexivity.
  - reflexivity.
  - left. repeat split; auto.
  - exists message, s'. repeat split; try assumption.
    rewrite Hs'. reflexivity.
Defined.

Lemma settle_guard_suppresses_motion_only_witness :
  (forall x y,
      deliver Sample.env_settling 1 (ev_motion x y) Sample.slideshow
      = (Ok tt, Sample.slideshow)) /\
  saver_active (snd (deliver Sample.env_settling 1 ev_key Sample.slideshow))
  = false /\
  saver_active (snd (deliver Sample.env_settling 1 ev_button Sample.slideshow))
  = false.
Proof.
  destruct (settle_guard_suppresses_motion_only
              Sample.env_settling 1 Sample.slideshow)
    as (Hm & (_ & Hk) & (_ & Hb)).
  - vm_compute. reflexivity.
  - apply (activation_arms_surfaces Sample.env false Sample.idle_app).
    + reflexivity.
    + vm_compute. reflexivity.
    + vm_compute. repeat constructor.
  - vm_compute. reflexivity.
  - repeat split; assumption.
Defined.

Section IdleCheck.

Variable env : Env.

Lemma schedule_idle_check_returns s : fst (schedule_idle_check s) = Ok tt.
Proof.
  open_app s. unfold schedule_idle_check. run. now destruct s_ijob.
Qed.

Lemma finally_ret_schedule s :
  finally (ret tt) schedule_idle_check s = schedule_idle_check s.
Proof.
  unfold finally, ret. pose proof (schedule_idle_check_returns s) as H.
  destruct (schedule_idle_check s) as [[[]|e] s']; cbn in H;
    [reflexivity | discriminate].
Qed.

Lemma check_idle_below s :
  (timeout_seconds (config s) >? 0)
  && PyFloat.ge_int (get_idle_seconds env) (timeout_seconds (config s))
  = false ->
  check_idle env s = schedule_idle_check s.
Proof.
  intros H. rewrite <- finally_ret_schedule.
  unfold check_idle, finally.
  unfold bind at 1. cbv beta iota delta [gets].
  destruct (saver_active s); cbn [negb]; [reflexivity|].
  unfold bind at 1. cbv beta iota delta [gets]. now rewrite H.
Qed.

Lemma check_idle_reached s :
  saver_active s = false ->
  (timeout_seconds (config s) >? 0)
  && PyFloat.ge_int (get_idle_seconds env) (timeout_seconds (config s))
  = true ->
  check_idle env s
  = finally (activate_screensaver env false) schedule_idle_check s.
Proof.
  intros Ha H. unfold check_idle, finally.
  unfold bind at 1. cbv beta iota delta [gets]. rewrite Ha. cbn [negb].
  unfold bind at 1. cbv beta iota delta [gets]. now rewrite H.
Qed.

End IdleCheck.

(** C9. The periodic idle check brings the saver up only when the
    configured [timeout_seconds] is strictly positive and the reported
    idle time has reached it: then, and with the session idle, it runs
    [activate_screensaver(preview=False)].  With a timeout of 0 or less,
    or an idle time below the timeout, it does nothing but re-arm the
    poll, whatever the idle value. *)
Theorem idle_check_needs_positive_timeout_reached :
  forall (env : Env) (s : App),
    let timeout := timeout_seconds (config s) in
    let idle := get_idle_seconds env in
    (saver_active s = false ->
     saver_active (snd (check_idle env s)) = true ->
     0 < timeout /\ PyFloat.ge_int idle timeout = true) /\
    (timeout <= 0 ->
     check_idle env s = schedule_idle_check s /\
     saver_active (snd (check_idle env s)) = saver_active s) /\
    (PyFloat.ge_int idle timeout = false ->
     check_idle env s = schedule_idle_check s) /\
    (saver_active s = false -> 0 < timeout ->
     PyFloat.ge_int idle timeout = true ->
     check_idle env s
     = finally (activate_screensaver env false) schedule_idle_check s).
Proof.
  intros env s timeout idle.
  assert (Hkeep : forall s, saver_active (snd (schedule_idle_check s))
                            = saver_active s).
  { intros s0.
    apply (keeps_proj _ (fun p => snd (fst (fst (fst (fst (fst p))))))
                      _ schedule_idle_check_keeps). }
  assert (Hoff : timeout <= 0 -> (timeout >? 0) = false).
  { intros H. rewrite Z.gtb_ltb. apply Z.ltb_ge. lia. }
  split; [|split; [|split]].
  - intros Ha Hup.
    destruct ((timeout >? 0) && PyFloat.ge_int idle timeout) eqn:E.
    + apply andb_prop in E as [E1 E2]. apply Z.gtb_lt in E1. split; [lia|exact E2].
    + rewrite (check_idle_below env s E), Hkeep in Hup. congruence.
  - intros Ht.
    assert (E : (timeout >? 0) && PyFloat.ge_int idle timeout = false)
      by now rewrite (Hoff Ht).
    rewrite (check_idle_below env s E). split; [reflexivity | apply Hkeep].
  - intros Hi. apply check_idle_below. fold timeout idle. rewrite Hi.
    apply andb_false_r.
  - intros Ha Ht Hi. apply check_idle_reached; [assumption|].
    fold timeout idle. rewrite Hi, andb_true_r. apply Z.gtb_lt. lia.
Qed.

(** A day without input and a timeout of 0: the poll is re-armed and
    nothing else; 300 s without input and the default timeout of 300 s:
    the saver comes up. *)
Lemma idle_check_needs_positive_timeout_reached_witness :
  check_idle (Sample.idle_for 86400) Sample.never_idle
  = schedule_idle_check Sample.never_idle /\
  check_idle (Sample.idle_for 299) Sample.idle_app
  = schedule_idle_check Sample.idle_app /\
  check_idle (Sample.idle_for 300) Sample.idle_app
  = finally (activate_screensaver (Sample.idle_for 300) false)
            schedule_idle_check Sample.idle_app.
Proof.
  split; [|split].
  - destruct (idle_check_needs_positive_timeout_reached
                (Sample.idle_for 86400) Sample.never_idle)
      as (_ & Hoff & _).
    apply Hoff. cbn. lia.
  - destruct (idle_check_needs_positive_timeout_reached
                (Sample.idle_for 299) Sample.idle_app)
      as (_ & _ & Hbelow & _).
    apply Hbelow. vm_compute. reflexivity.
  - destruct (idle_check_needs_positive_timeout_reached
                (Sample.idle_for 300) Sample.idle_app)
      as (_ & _ & _ & Hup).
    apply Hup.
    + reflexivity.
    + cbn. lia.
    + vm_compute. reflexivity.
Defined.

Section Listing.

Variable fs : FileSystem.

Lemma collect_images_filter folder names :
  collect_images fs folder names =
  map (join fs folder)
      (List.filter (fun name => isfile fs (join fs folder name)
                                && supported name) names).
Proof.
  induction names as [|name names IH]; [reflexivity|].
  cbn [collect_images List.filter].
  destruct (isfile fs (join fs folder name) && supported name);
    cbn [map]; now rewrite IH.
Qed.

Lemma list_images_in_folder_filter folder :
  list_images_in_folder fs folder <> [] ->
  list_images_in_folder fs folder =
  map (join fs folder)
      (List.filter (fun name => isfile fs (join fs folder name)
                                && supported name) (listdir fs folder)).
Proof.
  unfold list_images_in_folder.
  destruct (isdir fs folder); cbn [negb]; [|congruence].
  intros _. apply collect_images_filter.
Qed.

End Listing.

Lemma activate_screensaver_folder env preview s cfg :
  saver_active s = false ->
  read_widgets (widgets s) (config s) = Some cfg ->
  mode cfg <> "single" ->
  shuffle cfg = false ->
  list_images_in_folder (fs env) (image_path cfg) <> [] ->
  current_images (snd (activate_screensaver env preview s))
  = map Some (list_images_in_folder (fs env) (image_path cfg)).
Proof.
  intros Ha Hr Hm Hsh Hne.
  rewrite (activate_screensaver_idle env preview s cfg Ha Hr). cbv zeta.
  apply String.eqb_neq in Hm. rewrite Hm, Hsh.
  rewrite bool_decide_eq_false_2 by assumption.
  pose proof (start_session_core env preview
                (map Some (list_images_in_folder (fs env) (image_path cfg)))
                (refreshed cfg s)) as Hc.
  unfold core in Hc. now injection Hc as _ _ _ Hi _.
Qed.

(** C8. In folder mode with the shuffle flag off, two activations over the
    same directory contents resolve the same image list in the same
    order, whatever else differs between them (time, monitors, pointer,
    preview, earlier sessions): the list is the directory enumeration
    with the unsupported and non-file entries dropped, in enumeration
    order, each name joined to the folder. *)
Theorem folder_order_without_shuffle_is_reproducible :
  forall (env1 env2 : Env) (preview1 preview2 : bool) (s1 s2 : App)
         (cfg1 cfg2 : Config),
    saver_active s1 = false -> saver_active s2 = false ->
    read_widgets (widgets s1) (config s1) = Some cfg1 ->
    read_widgets (widgets s2) (config s2) = Some cfg2 ->
    mode cfg1 <> "single" -> mode cfg2 <> "single" ->
    shuffle cfg1 = false -> shuffle cfg2 = false ->
    image_path cfg1 = image_path cfg2 ->
    fs env1 = fs env2 ->
    let folder := image_path cfg1 in
    let files := list_images_in_folder (fs env1) folder in
    files <> [] ->
    current_images (snd (activate_screensaver env1 preview1 s1))
    = current_images (snd (activate_screensaver env2 preview2 s2)) /\
    current_images (snd (activate_screensaver env1 preview1 s1))
    = map Some files /\
    files = map (join (fs env1) folder)
                (List.filter
                   (fun name => isfile (fs env1) (join (fs env1) folder name)
                                && supported name)
                   (listdir (fs env1) folder)).
Proof.
  intros env1 env2 preview1 preview2 s1 s2 cfg1 cfg2
         Ha1 Ha2 Hr1 Hr2 Hm1 Hm2 Hsh1 Hsh2 Hpath Hfs folder files Hne.
  assert (H1 : current_images (snd (activate_screensaver env1 preview1 s1))
               = map Some files)
    by now apply activate_screensaver_folder.
  assert (H2 : current_images (snd (activate_screensaver env2 preview2 s2))
               = map Some files).
  { unfold files, folder. rewrite Hpath, Hfs.
    apply activate_screensaver_folder; try assumption.
    rewrite <- Hpath, <- Hfs. exact Hne. }
  split; [congruence|]. split; [exact H1|].
  now apply list_images_in_folder_filter.
Qed.

(** The sample folder, activated at two different times, once as a
    preview: "notes.txt" (unsupported) and "old" (not a file) are
    dropped, the rest keeps the enumeration order. *)
Lemma folder_order_without_shuffle_is_reproducible_witness :
  current_images
    (snd (activate_screensaver Sample.env false Sample.idle_app))
  = current_images
      (snd (activate_screensaver Sample.env_later true Sample.never_idle)) /\
  current_images
    (snd (activate_screensaver Sample.env false Sample.idle_app))
  = [Some "pics/b.png"; Some "pics/a.JPG"; Some "pics/c.webp"].
Proof.
  pose (cfg := {| mode := "folder"; image_path := "pics";
                  timeout_seconds := 300; slideshow_interval := 10;
                  scale_mode := "fill"; background := "#000000";
                  shuffle := false; mouse_move_exit_pixels := 10;
                  allow_blank_single := false; clock_overlay := false;
                  start_in_tray := false |}).
  destruct (folder_order_without_shuffle_is_reproducible
              Sample.env Sample.env_later false true
              Sample.idle_app Sample.never_idle cfg cfg)
    as (Hsame & Hlist & _).
  - reflexivity.
  - reflexivity.
  - reflexivity.
  - reflexivity.
  - discriminate.
  - discriminate.
  - reflexivity.
  - reflexivity.
  - reflexivity.
  - reflexivity.
  - vm_compute. discriminate.
  - split; [exact Hsame | exact Hlist].
Defined.

Section Slideshow.

Variable env : Env.








Lemma next_slide_steps s :
  saver_active s = true ->
  current_images s <> [] ->
  let n := Z.of_nat (length (current_images s)) in
  next_slide env s =
  bind (show_current_image_on_all env)
       (fun _ => if 1 <? n then schedule_slideshow else ret tt)
       (set_slideshow_index ((slideshow_index s + 1) mod n) s).
Proof.
  intros Ha Hne n. unfold next_slide.
  unfold bind at 1. cbv beta iota delta [gets]. rewrite Ha. cbn [negb].
  unfold bind at 1. cbv beta iota delta [gets].
  unfold bind at 1. cbv beta iota delta [gets]. fold n.
  unfold bind at 1, lift, py_mod.
  assert (Hn : n <> 0).
  { unfold n. destruct (current_images s); [congruence | cbn; lia]. }
  rewrite (proj2 (Z.eqb_neq n 0) Hn).
  unfold bind at 1. cbv beta iota delta [modify]. reflexivity.
Qed.


End Slideshow.



Section Scaler.

Lemma resize_size img w h out :
  PIL.resize img w h = Ok out -> width out = w /\ height out = h.
Proof.
  unfold PIL.resize.
  destruct (Z.eqb_spec (width img) w), (Z.eqb_spec (height img) h);
    cbn [andb]; try (destruct ((w <? 1) || (h <? 1)); [discriminate|]);
    intros [= <-]; auto.
Qed.

Lemma crop_size img l t r b out :
  PIL.crop img l t r b = Ok out ->
  width out = r - l /\ height out = b - t.
Proof.
  unfold PIL.crop. destruct ((r <? l) || (b <? t)); [discriminate|].
  intros [= <-]. auto.
Qed.

Lemma new_size w h color out :
  PIL.new w h color = Ok out -> width out = w /\ height out = h.
Proof.
  unfold PIL.new. destruct ((w <? 0) || (h <? 0)); [discriminate|].
  intros [= <-]. auto.
Qed.

Lemma resize_accepts img w h :
  1 <= w -> 1 <= h -> exists out, PIL.resize img w h = Ok out.
Proof.
  intros Hw Hh. unfold PIL.resize.
  destruct ((width img =? w) && (height img =? h)); [eauto|].
  destruct (Z.ltb_spec w 1); [lia|]. destruct (Z.ltb_spec h 1); [lia|].
  cbn. eauto.
Qed.

Lemma crop_accepts img l t w h :
  0 <= w -> 0 <= h -> exists out, PIL.crop img l t (l + w) (t + h) = Ok out.
Proof.
  intros Hw Hh. unfold PIL.crop.
  destruct (Z.ltb_spec (l + w) l); [lia|].
  destruct (Z.ltb_spec (t + h) t); [lia|]. cbn. eauto.
Qed.

Lemma new_accepts w h color :
  0 <= w -> 0 <= h -> exists out, PIL.new w h color = Ok out.
Proof.
  intros Hw Hh. unfold PIL.new.
  destruct (Z.ltb_spec w 0); [lia|]. destruct (Z.ltb_spec h 0); [lia|].
  cbn. eauto.
Qed.

Lemma resize_image_fill_size img W H out :
  width img <> 0 -> height img <> 0 ->
  resize_image img W H "fill" = Ok out -> width out = W /\ height out = H.
Proof.
  intros Hw Hh. unfold resize_image.
  replace (String.eqb "fill" "stretch") with false by reflexivity.
  replace (String.eqb "fill" "fit") with false by reflexivity.
  replace (String.eqb "fill" "fill") with true by reflexivity.
  rewrite (proj2 (Z.eqb_neq _ _) Hw), (proj2 (Z.eqb_neq _ _) Hh).
  cbn [orb].
  destruct (scaled_size _ _ _ _ _) as [[nw nh]|e]; [|discriminate].
  cbn [res_bind].
  destruct (PIL.resize img nw nh) as [img2|e]; [|discriminate].
  cbn [res_bind]. intros Hc. apply crop_size in Hc. lia.
Qed.

Lemma render_frame_fit_size img W H bg out :
  render_frame img W H "fit" bg = Ok out -> width out = W /\ height out = H.
Proof.
  unfold render_frame.
  replace (String.eqb "fit" "fit") with true by reflexivity.
  destruct (resize_image img W H "fit") as [resized|e]; [|discriminate].
  cbn [res_bind].
  destruct (PIL.new W H bg) as [canvas|e] eqn:Hn; [|discriminate].
  cbn [res_bind]. intros [= <-]. cbn. now apply new_size in Hn.
Qed.

End Scaler.

Section Fill.

Lemma inside_iff img x y :
  PIL.inside img x y = true <->
  0 <= x < width img /\ 0 <= y < height img.
Proof.
  unfold PIL.inside.
  rewrite !andb_true_iff, !Z.leb_le, !Z.ltb_lt. lia.
Qed.

Lemma centred_offset n W : W <= n -> 0 <= (n - W) / 2 <= n - W.
Proof.
  intros H. split.
  - apply Z.div_pos; lia.
  - apply Z.div_le_upper_bound; lia.
Qed.

Lemma proportional_inside x n m :
  0 < m -> 0 <= x < n -> 0 <= x * m / n < m.
Proof.
  intros Hm Hx. split.
  - apply Z.div_pos; nia.
  - apply Z.div_lt_upper_bound; nia.
Qed.

(** Whenever the scaled size reaches the target in both directions, the
    centred crop lies inside the scaled picture and the fill frame is
    picture all over. *)
Lemma fill_frame_is_all_picture img W H nw nh :
  0 < width img -> 0 < height img ->
  (forall x y, PIL.inside img x y = true ->
               is_content (pixel img x y) = true) ->
  scaled_size PyFloat.max (width img) (height img) W H = Ok (nw, nh) ->
  1 <= W <= nw -> 1 <= H <= nh ->
  exists out,
    resize_image img W H "fill" = Ok out /\
    forall x y, 0 <= x < W -> 0 <= y < H ->
                is_content (pixel out x y) = true.
Proof.
  intros Hiw Hih Hsrc Hsc HW HH. unfold resize_image.
  replace (String.eqb "fill" "stretch") with false by reflexivity.
  replace (String.eqb "fill" "fit") with false by reflexivity.
  replace (String.eqb "fill" "fill") with true by reflexivity.
  destruct (Z.eqb_spec (width img) 0); [lia|].
  destruct (Z.eqb_spec (height img) 0); [lia|].
  cbn [orb]. rewrite Hsc. cbn [res_bind].
  pose proof (centred_offset nw W (proj2 HW)) as Hl.
  pose proof (centred_offset nh H (proj2 HH)) as Ht.
  assert (Himg2 : exists img2,
             PIL.resize img nw nh = Ok img2 /\
             width img2 = nw /\ height img2 = nh /\
             forall x y, PIL.inside img2 x y = true ->
                         is_content (pixel img2 x y) = true).
  { destruct (resize_accepts img nw nh) as [img2 Hr]; [lia | lia |].
    exists img2. destruct (resize_size _ _ _ _ Hr) as [Hw2 Hh2].
    repeat split; try assumption.
    intros x y Hin. apply inside_iff in Hin. rewrite Hw2, Hh2 in Hin.
    unfold PIL.resize in Hr.
    destruct ((width img =? nw) && (height img =? nh)) eqn:Hsame.
    - injection Hr as <-. apply Hsrc. apply inside_iff.
      apply andb_prop in Hsame as [E1 E2].
      apply Z.eqb_eq in E1, E2. lia.
    - destruct ((nw <? 1) || (nh <? 1)); [discriminate|].
      injection Hr as <-. cbn.
      rewrite (proj2 (Z.ltb_lt 0 _) Hiw), (proj2 (Z.ltb_lt 0 _) Hih).
      cbn. apply Hsrc. apply inside_iff.
      split; apply proportional_inside; lia. }
  destruct Himg2 as (img2 & -> & Hw2 & Hh2 & Hc2). cbn [res_bind].
  destruct (crop_accepts img2 ((nw - W) / 2) ((nh - H) / 2) W H)
    as [out Hout]; [lia | lia |].
  exists out. split; [exact Hout|].
  intros x y Hx Hy. unfold PIL.crop in Hout.
  destruct (_ || _); [discriminate|]. injection Hout as <-. cbn.
  assert (Hin : PIL.inside img2 (x + (nw - W) / 2) (y + (nh - H) / 2) = true)
    by (apply inside_iff; lia).
  rewrite Hin. now apply Hc2.
Qed.

End Fill.

(** C1, as the code has it.  For the scale modes [fit], [fill] and
    [stretch], any source picture and any target size: outside fill mode
    on a source with a zero side (which [resize_image] hands back as it
    is), a frame that [render_frame] produces is exactly [W] x [H]; and it
    does produce one whenever the target is at least 1x1 and the scaling
    step goes through ([scalable]: the scaled size is computed and is at
    least 1x1). *)
Theorem render_frame_has_target_size :
  forall (img : Image) (W H : Z) (mode bg : string),
    mode = "fit" \/ mode = "fill" \/ mode = "stretch" ->
    (mode = "fill" -> width img <> 0 /\ height img <> 0) ->
    (forall out,
        render_frame img W H mode bg = Ok out ->
        width out = W /\ height out = H) /\
    (1 <= W -> 1 <= H -> scalable img W H mode = true ->
     exists out,
       render_frame img W H mode bg = Ok out /\
       width out = W /\ height out = H).
Proof.
  intros img W H mode bg Hmode Hfill.
  assert (Hsize : forall out,
             render_frame img W H mode bg = Ok out ->
             width out = W /\ height out = H).
  { intros out. destruct Hmode as [-> | [-> | ->]].
    - apply render_frame_fit_size.
    - destruct (Hfill eq_refl) as [Hw Hh]. unfold render_frame.
      replace (String.eqb "fill" "fit") with false by reflexivity.
      now apply resize_image_fill_size.
    - unfold render_frame, resize_image.
      replace (String.eqb "stretch" "fit") with false by reflexivity.
      replace (String.eqb "stretch" "stretch") with true by reflexivity.
      apply resize_size. }
  split; [exact Hsize|].
  intros HW HH Hsc.
  assert (Hout : exists out, render_frame img W H mode bg = Ok out).
  { unfold scalable in Hsc. destruct Hmode as [-> | [-> | ->]].
    - unfold render_frame, resize_image.
      replace (String.eqb "fit" "fit") with true in * by reflexivity.
      replace (String.eqb "fit" "stretch") with false in * by reflexivity.
      cbn [orb] in Hsc.
      destruct (new_accepts W H bg) as [canvas Hc]; [lia | lia |].
      destruct ((width img =? 0) || (height img =? 0)).
      + cbn [res_bind]. rewrite Hc. cbn. eauto.
      + cbn [orb] in Hsc.
        destruct (scaled_size _ _ _ _ _) as [[nw nh]|e]; [|discriminate].
        apply andb_prop in Hsc as [Hnw Hnh].
        apply Z.leb_le in Hnw, Hnh. cbn [res_bind].
        destruct (resize_accepts img nw nh Hnw Hnh) as [resized ->].
        cbn [res_bind]. rewrite Hc. cbn. eauto.
    - destruct (Hfill eq_refl) as [Hw Hh].
      unfold render_frame, resize_image.
      replace (String.eqb "fill" "fit") with false in * by reflexivity.
      replace (String.eqb "fill" "stretch") with false in * by reflexivity.
      replace (String.eqb "fill" "fill") with true by reflexivity.
      rewrite (proj2 (Z.eqb_neq _ _) Hw), (proj2 (Z.eqb_neq _ _) Hh) in *.
      cbn [orb] in *.
      destruct (scaled_size _ _ _ _ _) as [[nw nh]|e]; [|discriminate].
      apply andb_prop in Hsc as [Hnw Hnh].
      apply Z.leb_le in Hnw, Hnh. cbn [res_bind].
      destruct (resize_accepts img nw nh Hnw Hnh) as [img2 ->].
      cbn [res_bind]. apply crop_accepts; lia.
    - unfold render_frame, resize_image.
      replace (String.eqb "stretch" "fit") with false by reflexivity.
      replace (String.eqb "stretch" "stretch") with true by reflexivity.
      apply resize_accepts; assumption. }
  destruct Hout as [out Hout]. exists out. split; [exact Hout|].
  now apply Hsize.
Qed.

(** A 3280 x 2460 picture on a 1920 x 1080 monitor, letterboxed. *)
Lemma render_frame_has_target_size_witness :
  exists out,
    render_frame (PIL.decoded 3280 2460) 1920 1080 "fit" "#000000" = Ok out /\
    width out = 1920 /\ height out = 1080.
Proof.
  apply (render_frame_has_target_size
           (PIL.decoded 3280 2460) 1920 1080 "fit" "#000000").
  - left. reflexivity.
  - discriminate.
  - lia.
  - lia.
  - vm_compute. reflexivity.
Defined.

(** In fill mode a source of width 0 comes back as it is, so the frame for
    a 4 x 3 target is 0 x 5. *)
Lemma fill_frame_of_empty_source_keeps_its_size :
  exists out,
    render_frame (PIL.decoded 0 5) 4 3 "fill" "#000000" = Ok out /\
    (width out, height out) <> (4, 3).
Proof.
  exists (PIL.decoded 0 5). split; [reflexivity | discriminate].
Qed.

(** C5 at a 3280 x 2460 picture filled onto a 1920 x 1080 monitor: the
    ratio [max(1920/3280, 1080/2460)] is a double just below 24/41, so
    [int(3280 * ratio)] is 1919, one short of the target width; the crop
    box starts at [left = -1], and the leftmost column of the
    1920 x 1080 frame lies outside the scaled picture: it is padding, not
    picture. *)
Theorem fill_frame_falls_short_of_target_width :
  scaled_size PyFloat.max 3280 2460 1920 1080 = Ok (1919, 1440) /\
  (1919 - 1920) / 2 = -1 /\
  exists out,
    render_frame (PIL.decoded 3280 2460) 1920 1080 "fill" "#000000" = Ok out /\
    width out = 1920 /\ height out = 1080 /\
    (forall y, pixel out 0 y = Padding) /\
    is_content (pixel out 1 0) = true.
Proof.
  split; [vm_compute; reflexivity|]. split; [reflexivity|].
  eexists. split; [vm_compute; reflexivity|].
  repeat split.
Qed.

Section NoZeroDivision.

Lemma safe_bind {A B} (c : Res A) (k : A -> Res B) :
  safe c -> (forall a, safe (k a)) -> safe (res_bind c k).
Proof.
  unfold safe. destruct c as [a|e]; cbn; [auto|].
  intros H _ [= ->]. now apply H.
Qed.

Lemma truediv_raises_iff a b :
  PyFloat.truediv a b = Raise ZeroDivisionError <-> b = 0.
Proof.
  unfold PyFloat.truediv. destruct (Z.eqb_spec b 0) as [->|Hb].
  - tauto.
  - split; [|contradiction].
    destruct a; [discriminate| |];
      match goal with
      | |- match ?x with _ => _ end = _ -> _ => destruct x; discriminate
      end.
Qed.

Lemma of_int_safe n : safe (PyFloat.of_int n).
Proof.
  unfold safe, PyFloat.of_int.
  destruct (binary_normalize _ _ _ _ _); discriminate.
Qed.

Lemma int_mul_safe n x : safe (PyFloat.int_mul n x).
Proof.
  unfold PyFloat.int_mul. apply safe_bind; [apply of_int_safe|].
  intros a. discriminate.
Qed.

Lemma to_int_safe x : safe (PyFloat.to_int x).
Proof. unfold safe. destruct x; discriminate. Qed.

Lemma resize_safe img w h : safe (PIL.resize img w h).
Proof.
  unfold safe, PIL.resize.
  destruct (_ && _); [discriminate|]. destruct (_ || _); discriminate.
Qed.

Lemma crop_safe img l t r b : safe (PIL.crop img l t r b).
Proof. unfold safe, PIL.crop. destruct (_ || _); discriminate. Qed.

Lemma scaled_size_safe pick iw ih W H :
  iw <> 0 -> ih <> 0 -> safe (scaled_size pick iw ih W H).
Proof.
  intros Hw Hh. unfold scaled_size.
  apply safe_bind; [intros E; now apply truediv_raises_iff in E|]. intros rw.
  apply safe_bind; [intros E; now apply truediv_raises_iff in E|]. intros rh.
  apply safe_bind; [apply int_mul_safe|]. intros fw.
  apply safe_bind; [apply to_int_safe|]. intros nw.
  apply safe_bind; [apply int_mul_safe|]. intros fh.
  apply safe_bind; [apply to_int_safe|]. intros nh.
  discriminate.
Qed.

Lemma resize_image_safe img W H mode : safe (resize_image img W H mode).
Proof.
  unfold resize_image.
  destruct (String.eqb mode "stretch"); [apply resize_safe|].
  destruct (Z.eqb_spec (width img) 0) as [|Hw]; [discriminate|].
  destruct (Z.eqb_spec (height img) 0) as [|Hh]; [discriminate|].
  cbn [orb].
  destruct (String.eqb mode "fit").
  - apply safe_bind; [now apply scaled_size_safe|].
    intros [nw nh]. apply resize_safe.
  - destruct (String.eqb mode "fill"); [|discriminate].
    apply safe_bind; [now apply scaled_size_safe|]. intros [nw nh].
    apply safe_bind; [apply resize_safe|]. intros img2. apply crop_safe.
Qed.

Lemma resize_image_zero_side img W H mode :
  width img = 0 \/ height img = 0 ->
  mode = "fit" \/ mode = "fill" ->
  resize_image img W H mode = Ok img.
Proof.
  intros Hz Hm. unfold resize_image.
  assert (Hs : String.eqb mode "stretch" = false)
    by (destruct Hm as [-> | ->]; reflexivity).
  rewrite Hs.
  assert (Hg : (width img =? 0) || (height img =? 0) = true).
  { destruct Hz as [-> | ->]; [reflexivity | apply orb_true_r]. }
  now rewrite Hg.
Qed.

End NoZeroDivision.

(** C10. [resize_image] never raises ZeroDivisionError, whatever the
    picture, the target and the mode.  The divisions [target_w / iw] and
    [target_h / ih] would raise exactly for a zero divisor; for a source
    whose width or height is 0, the modes [fit] and [fill] return the
    source as it is before any ratio is computed, so that the divisions
    run only with both sides of the source non-zero. *)
Theorem resize_image_never_divides_by_zero :
  forall (img : Image) (W H : Z) (mode : string),
    resize_image img W H mode <> Raise ZeroDivisionError /\
    (width img = 0 \/ height img = 0 ->
     mode = "fit" \/ mode = "fill" ->
     resize_image img W H mode = Ok img) /\
    (PyFloat.truediv W (width img) = Raise ZeroDivisionError
     <-> width img = 0) /\
    (PyFloat.truediv H (height img) = Raise ZeroDivisionError
     <-> height img = 0).
Proof.
  intros img W H mode. split; [apply resize_image_safe|].
  split; [apply resize_image_zero_side|].
  split; apply truediv_raises_iff.
Qed.

Lemma resize_image_never_divides_by_zero_witness :
  resize_image (PIL.decoded 0 5) 4 3 "fit" = Ok (PIL.decoded 0 5) /\
  resize_image (PIL.decoded 7 0) 4 3 "fill" = Ok (PIL.decoded 7 0).
Proof.
  split.
  - apply (resize_image_never_divides_by_zero (PIL.decoded 0 5) 4 3 "fit").
    + left. reflexivity.
    + left. reflexivity.
  - apply (resize_image_never_divides_by_zero (PIL.decoded 7 0) 4 3 "fill").
    + right. reflexivity.
    + right. reflexivity.
Defined.

(* ===================================================================== *)
(** * Further properties                                                  *)
(* ===================================================================== *)

(* ===================================================================== *)
(** * Further properties                                                  *)
(* ===================================================================== *)

Section Teardown.

Lemma cancel_subset job l t : t ∈ cancel job l -> t ∈ l.
Proof.
  destruct job as [id|]; cbn; [|auto].
  intros H. now apply list_elem_of_filter in H.
Qed.

Lemma cancel_gone job l t : t ∈ cancel job l -> Some (t_id t) <> job.
Proof.
  destruct job as [id|]; cbn; [|discriminate].
  intros H. apply list_elem_of_filter in H as [H _].
  apply bool_decide_unpack in H. congruence.
Qed.

Lemma foldl_delete_lookup (wins : list nat) (m : gmap nat Window) win :
  foldl (fun m w => delete w m) m wins !! win =
  if bool_decide (win ∈ wins) then None else m !! win.
Proof.
  revert m. induction wins as [|w wins IH]; intros m; cbn.
  - rewrite bool_decide_eq_false_2; [reflexivity | apply not_elem_of_nil].
  - rewrite IH. destruct (decide (win = w)) as [->|Hne].
    + rewrite lookup_delete_eq.
      rewrite (bool_decide_eq_true_2 (w ∈ w :: wins)) by constructor.
      now destruct (bool_decide _).
    + rewrite lookup_delete_ne by congruence.
      destruct (bool_decide_reflect (win ∈ wins)) as [Hin|Hout].
      * rewrite bool_decide_eq_true_2; [reflexivity | now constructor].
      * rewrite bool_decide_eq_false_2; [reflexivity|].
        intros H. apply elem_of_cons in H as [H|H]; contradiction.
Qed.

(** What an exit from an active session leaves, attribute by attribute. *)
Lemma exit_screensaver_active s :
  saver_active s = true ->
  exists s',
    exit_screensaver s = (Ok tt, s') /\
    core s' = (config s, false, background_only s, current_images s,
               slideshow_index s) /\
    saver_windows s' = [] /\ saver_labels s' = [] /\
    slideshow_job s' = None /\ clock_job s' = None /\
    idle_check_job s' = idle_check_job s /\
    activated_mouse_positions s' = activated_mouse_positions s /\
    toplevels (tk s') =
      foldl (fun m w => delete w m) (toplevels (tk s)) (saver_windows s) /\
    pending (tk s') = cancel (clock_job s) (cancel (slideshow_job s)
                                                    (pending (tk s))) /\
    next_timer (tk s') = next_timer (tk s) /\
    next_window (tk s') = next_window (tk s) /\
    root_wm (tk s') = (if tray s then root_wm (tk s) else wm_normal).
Proof.
  intros Ha. open_app s. subst. unfold exit_screensaver. run.
  destruct s_sjob, s_cjob, s_tray; run; rewrite destroy_all_spec; cbn;
    try destruct k_wm; cbn; eexists; (split; [reflexivity|]); cbn;
    repeat split.
Qed.

End Teardown.

Lemma triple_eq {A B C} (a a' : A) (b b' : B) (c c' : C) :
  (a, b, c) = (a', b', c') -> a = a' /\ b = b' /\ c = c'.
Proof. intros H. now inversion H. Qed.

Lemma quad_eq {A B C D} (a a' : A) (b b' : B) (c c' : C) (d d' : D) :
  (a, b, c, d) = (a', b', c', d') -> a = a' /\ b = b' /\ c = c' /\ d = d'.
Proof. intros H. now inversion H. Qed.

Section MonitorLoop.

Variable env : Env.

Lemma put_windows_lookup bg mons win m k :
  put_windows bg mons win m !! k =
  if decide (win <= k)%nat then
    match mons !! (k - win)%nat with
    | Some mon => Some (saver_window bg mon)
    | None => m !! k
    end
  else m !! k.
Proof.
  revert win m. induction mons as [|mon mons IH]; intros win m; cbn.
  - now destruct (decide _).
  - rewrite IH. destruct (decide (S win <= k)%nat) as [H|H].
    + rewrite decide_True by lia.
      replace (k - win)%nat with (S (k - S win)) by lia. cbn.
      destruct (mons !! (k - S win)%nat); [reflexivity|].
      apply lookup_insert_ne. lia.
    + destruct (decide (win <= k)%nat) as [H'|H'].
      * assert (k = win) as -> by lia.
        rewrite Nat.sub_diag. cbn. apply lookup_insert_eq.
      * apply lookup_insert_ne. lia.
Qed.

Lemma put_baselines_lookup pointer n win m k :
  put_baselines pointer n win m !! k =
  if decide (win <= k < win + n)%nat then Some pointer else m !! k.
Proof.
  revert win m. induction n as [|n IH]; intros win m; cbn.
  - destruct (decide _); [lia | reflexivity].
  - rewrite IH. destruct (decide (S win <= k < S win + n)%nat) as [H|H].
    + rewrite decide_True by lia. reflexivity.
    + destruct (decide (win <= k < win + S n)%nat) as [H'|H'].
      * assert (k = win) as -> by lia. apply lookup_insert_eq.
      * apply lookup_insert_ne. lia.
Qed.

Lemma put_windows_dom bg mons win m :
  dom (put_windows bg mons win m)
  = dom m ∪ list_to_set (seq win (length mons)).
Proof.
  revert win m. induction mons as [|mon mons IH]; intros win m; cbn.
  - now rewrite union_empty_r_L.
  - rewrite IH, dom_insert_L.
    rewrite (comm_L (∪) {[win]} (dom m)), <- (assoc_L (∪)). reflexivity.
Qed.

(** The monitor loop, as a whole: it never raises, appends one handle and
    one label per monitor, and touches nothing else of the session. *)
Lemma create_windows_spec mons s :
  exists s',
    create_windows env mons s = (Ok tt, s') /\
    core s' = core s /\ timers s' = timers s /\
    (activated_at s', tray s', widgets s') = (activated_at s, tray s, widgets s) /\
    (root_wm (tk s'), root_bindings (tk s'), dialogs (tk s'))
    = (root_wm (tk s), root_bindings (tk s), dialogs (tk s)) /\
    saver_windows s'
    = (saver_windows s ++ seq (next_window (tk s)) (length mons))%list /\
    saver_labels s'
    = (saver_labels s
       ++ map (fun mon => (new_label (background (config s)), mon)) mons)%list /\
    next_window (tk s') = (next_window (tk s) + length mons)%nat /\
    toplevels (tk s')
    = put_windows (background (config s)) mons (next_window (tk s))
                  (toplevels (tk s)) /\
    activated_mouse_positions s'
    = put_baselines (winfo_pointer env) (length mons) (next_window (tk s))
                    (activated_mouse_positions s).
Proof.
  revert s. induction mons as [|mon mons IH]; intros s.
  - exists s. cbn. rewrite !app_nil_r, Nat.add_0_r. repeat split.
  - cbn [create_windows]. unfold bind at 1.
    replace (create_window env mon s)
      with (Ok tt, snd (create_window env mon s)) by reflexivity.
    destruct (IH (snd (create_window env mon s)))
      as (s' & -> & Hc & Ht & Ho & Hr & Hw & Hl & Hn & Htop & Hpos).
    exists s'. split; [reflexivity|].
    rewrite Hc, Ht, Ho, Hr, Hw, Hl, Hn, Htop, Hpos. clear.
    open_app s. unfold create_window. run.
    rewrite <- !app_assoc. cbn.
    repeat split; f_equal; lia.
Qed.

End MonitorLoop.

Section StartSession.

Variable env : Env.

Lemma paint_labels_monitors img mode bg labels :
  map snd (snd (paint_labels img mode bg labels)) = map snd labels.
Proof.
  induction labels as [|[l mon] labels IH]; [reflexivity|].
  cbn [paint_labels]. destruct (render_frame _ _ _ _ _); [|reflexivity].
  destruct (paint_labels img mode bg labels) as [r rest]. cbn in *.
  now rewrite IH.
Qed.

Lemma blank_all_monitors bg labels :
  map snd (blank_all bg labels) = map snd labels.
Proof. unfold blank_all. now rewrite map_map. Qed.

(** Painting never adds, drops or reorders labels, and every label stays
    with its monitor. *)
Lemma show_current_image_on_all_monitors s :
  map snd (saver_labels (snd (show_current_image_on_all env s)))
  = map snd (saver_labels s).
Proof.
  assert (Hset : forall l, saver_labels (set_saver_labels l s) = l)
    by (intros; open_app s; reflexivity).
  unfold show_current_image_on_all.
  destruct (negb (saver_active s) || bool_decide (current_images s = []));
    [reflexivity|].
  destruct (py_index _ _) as [path|e]; [|reflexivity].
  destruct (if background_only s then None else path) as [p|]; cbn [snd].
  - destruct (open_image_safe env p) as [img|]; cbn [snd].
    + pose proof (paint_labels_monitors img (scale_mode (config s))
                    (background (config s)) (saver_labels s)) as H.
      destruct (paint_labels _ _ _ _) as [r labels]. cbn [snd] in *.
      now rewrite Hset.
    + rewrite Hset. apply blank_all_monitors.
  - rewrite Hset. apply blank_all_monitors.
Qed.

Lemma session_setup_core preview images s :
  core (session_setup env preview images s)
  = (config s, true, background_only s, images, 0).
Proof. open_app s. now destruct preview, s_tray. Qed.

Lemma session_setup_timers preview images s :
  timers (session_setup env preview images s) = timers s.
Proof. open_app s. now destruct preview, s_tray. Qed.

Lemma session_setup_handles preview images s :
  handles (session_setup env preview images s)
  = ([], toplevels (tk s), ∅, time_time env).
Proof. open_app s. now destruct preview, s_tray. Qed.

Lemma session_setup_labels preview images s :
  saver_labels (session_setup env preview images s) = [].
Proof. open_app s. now destruct preview, s_tray. Qed.

Lemma session_setup_next_window preview images s :
  next_window (tk (session_setup env preview images s)) = next_window (tk s).
Proof. open_app s. now destruct preview, s_tray. Qed.

Lemma session_setup_rest preview images s :
  (tray (session_setup env preview images s),
   widgets (session_setup env preview images s),
   root_bindings (tk (session_setup env preview images s)),
   dialogs (tk (session_setup env preview images s)))
  = (tray s, widgets s, root_bindings (tk s), dialogs (tk s)).
Proof. open_app s. now destruct preview, s_tray. Qed.

Lemma session_setup_root_wm preview images s :
  root_wm (tk (session_setup env preview images s)) =
  (if preview then root_wm (tk s)
   else if tray s then wm_withdrawn else wm_iconic).
Proof. open_app s. now destruct preview, s_tray. Qed.

Lemma session_setup_fields preview images s :
  let s1 := session_setup env preview images s in
  core s1 = (config s, true, background_only s, images, 0) /\
  timers s1 = timers s /\
  saver_windows s1 = [] /\ saver_labels s1 = [] /\
  activated_mouse_positions s1 = ∅ /\
  activated_at s1 = time_time env /\
  toplevels (tk s1) = toplevels (tk s) /\
  next_window (tk s1) = next_window (tk s) /\
  (tray s1, widgets s1, root_bindings (tk s1), dialogs (tk s1))
  = (tray s, widgets s, root_bindings (tk s), dialogs (tk s)) /\
  root_wm (tk s1) =
    (if preview then root_wm (tk s)
     else if tray s then wm_withdrawn else wm_iconic).
Proof.
  cbv zeta.
  pose proof (session_setup_handles preview images s) as Hh.
  unfold handles in Hh.
  destruct (quad_eq _ _ _ _ _ _ _ _ Hh) as (Hw & Htop & Hp & Hat).
  split; [apply session_setup_core|].
  split; [apply session_setup_timers|].
  split; [exact Hw|]. split; [apply session_setup_labels|].
  split; [exact Hp|]. split; [exact Hat|]. split; [exact Htop|].
  split; [apply session_setup_next_window|].
  split; [apply session_setup_rest | apply session_setup_root_wm].
Qed.

(** What [start_session] leaves of the surfaces, whether or not painting
    the first frame raises. *)
Lemma start_session_surfaces preview images s :
  let s' := snd (start_session env preview images s) in
  let mons := get_all_monitors env in
  let first := next_window (tk s) in
  saver_windows s' = seq first (length mons) /\
  map snd (saver_labels s') = mons /\
  toplevels (tk s')
  = put_windows (background (config s)) mons first (toplevels (tk s)) /\
  activated_mouse_positions s'
  = put_baselines (winfo_pointer env) (length mons) first ∅ /\
  activated_at s' = time_time env.
Proof.
  intros s' mons first. unfold s'. rewrite start_session_steps.
  destruct (session_setup_fields preview images s)
    as (Hc0 & _ & Hw0 & Hl0 & Hp0 & Ha0 & Ht0 & Hn0 & _).
  destruct (create_windows_spec env mons (session_setup env preview images s))
    as (s1 & E & Hc & _ & Ho & _ & Hw & Hl & _ & Htop & Hpos).
  fold mons. rewrite E. cbn [snd].
  rewrite Hw0, Hn0 in Hw. rewrite Hl0 in Hl. rewrite Ht0, Hn0 in Htop.
  rewrite Hp0, Hn0 in Hpos.
  assert (Hbg : background (config (session_setup env preview images s))
                = background (config s)).
  { clear. open_app s. now destruct preview, s_tray. }
  rewrite Hbg in *. fold first in Hw, Htop, Hpos.
  assert (Hat : activated_at s1 = time_time env)
    by (injection Ho as -> _ _; exact Ha0).
  (* painting, then the timers *)
  unfold bind.
  pose proof (show_current_image_on_all_keeps env s1) as Ks.
  pose proof (show_current_image_on_all_monitors s1) as Ms.
  destruct (show_current_image_on_all env s1) as [[[]|e] s2]; cbn [snd] in *.
  - pose proof (schedule_timers_keeps s2) as Kt.
    destruct (schedule_timers s2) as [r s3]. cbn [snd] in *.
    assert (Kh := f_equal (fun p => snd (fst p)) Kt).
    assert (Kl := f_equal snd Kt).
    assert (Kh2 := f_equal (fun p => snd (fst (fst p))) Ks).
    cbn in Kh, Kl, Kh2. unfold handles in Kh, Kh2.
    injection Kh as Kw Ktop Kp Kat. injection Kh2 as Kw2 Ktop2 Kp2 Kat2.
    rewrite Kw, Kw2, Kl, Ms, Ktop, Ktop2, Kp, Kp2, Kat, Kat2, Hl, Hw.
    repeat split; try assumption.
    cbn. now rewrite map_map, map_id.
  - assert (Kh2 := f_equal (fun p => snd (fst (fst p))) Ks).
    cbn in Kh2. unfold handles in Kh2.
    injection Kh2 as Kw2 Ktop2 Kp2 Kat2.
    rewrite Kw2, Ms, Ktop2, Kp2, Kat2, Hl, Hw.
    repeat split; try assumption.
    cbn. now rewrite map_map, map_id.
Qed.

End StartSession.

Section Scheduling.

Lemma schedule_slideshow_timers s :
  fst (schedule_slideshow s) = Ok tt /\
  timers (snd (schedule_slideshow s))
  = ((cancel (slideshow_job s) (pending (tk s)) ++ [slideshow_timer s])%list,
     S (next_timer (tk s)),
     (Some (next_timer (tk s)), clock_job s, idle_check_job s)).
Proof.
  open_app s. unfold schedule_slideshow, slideshow_timer, timers. run.
  destruct s_sjob; run; split; reflexivity.
Qed.

Lemma schedule_clock_overlay_timers s :
  fst (schedule_clock_overlay s) = Ok tt /\
  timers (snd (schedule_clock_overlay s))
  = ((cancel (clock_job s) (pending (tk s)) ++ [clock_timer s])%list,
     S (next_timer (tk s)),
     (slideshow_job s, Some (next_timer (tk s)), idle_check_job s)).
Proof.
  open_app s. unfold schedule_clock_overlay, clock_timer, timers. run.
  destruct s_cjob; run; split; reflexivity.
Qed.

Lemma schedule_idle_check_timers s :
  fst (schedule_idle_check s) = Ok tt /\
  timers (snd (schedule_idle_check s))
  = ((cancel (idle_check_job s) (pending (tk s)) ++ [idle_timer s])%list,
     S (next_timer (tk s)),
     (slideshow_job s, clock_job s, Some (next_timer (tk s)))).
Proof.
  open_app s. unfold schedule_idle_check, idle_timer, timers. run.
  destruct s_ijob; run; split; reflexivity.
Qed.

Lemma show_current_image_on_all_timers env s :
  timers (snd (show_current_image_on_all env s)) = timers s.
Proof.
  destruct (show_current_image_on_all_labels env s) as [l ->].
  open_app s. reflexivity.
Qed.

End Scheduling.

Section Tidy.

Lemma tidy_ext job job' l n :
  (forall cb, job' cb = job cb) -> tidy job l n -> tidy job' l n.
Proof.
  intros He (Ho & Hf & Hn & Hb & Hd).
  split; [|split; [exact Hf|split; [exact Hn|split]]].
  - eapply Forall_impl; [exact Ho|]. intros t. cbn. now rewrite He.
  - intros cb id. rewrite He. apply Hb.
  - intros cb cb' id. rewrite !He. apply Hd.
Qed.

Lemma cancel_sublist job l : sublist (cancel job l) l.
Proof. destruct job; cbn; [apply sublist_filter | reflexivity]. Qed.

Lemma NoDup_ids_sublist (l l' : list Timer) :
  sublist l' l -> NoDup (map t_id l) -> NoDup (map t_id l').
Proof.
  intros Hs Hn. eapply sublist_NoDup; [exact Hn|].
  change (map t_id l') with (t_id <$> l').
  change (map t_id l) with (t_id <$> l). now apply fmap_sublist.
Qed.

(** Cancelling the timer of [cb] and clearing its job attribute. *)
Lemma tidy_forget job l n cb :
  tidy job l n ->
  tidy (fun c => if decide (c = cb) then None else job c)
       (cancel (job cb) l) n.
Proof.
  intros (Ho & Hf & Hn & Hb & Hd).
  split; [|split; [|split; [|split]]].
  - apply Forall_forall. intros t Ht.
    pose proof (cancel_gone _ _ _ Ht) as Hg.
    apply cancel_subset in Ht.
    rewrite Forall_forall in Ho. specialize (Ho t Ht).
    destruct (decide (t_callback t = cb)) as [<-|]; congruence.
  - apply Forall_forall. intros t Ht. apply cancel_subset in Ht.
    rewrite Forall_forall in Hf. now apply Hf.
  - eapply NoDup_ids_sublist; [apply cancel_sublist | exact Hn].
  - intros c id. destruct (decide (c = cb)); [discriminate | apply Hb].
  - intros c c' id.
    destruct (decide (c = cb)); [discriminate|].
    destruct (decide (c' = cb)); [discriminate | apply Hd].
Qed.

(** Cancelling the timer of [cb] and arming a fresh one in its place. *)
Lemma tidy_rearm job l n cb ms :
  tidy job l n ->
  tidy (fun c => if decide (c = cb) then Some n else job c)
       (cancel (job cb) l ++ [mkTimer n ms cb]) (S n).
Proof.
  intros H. pose proof H as (_ & _ & _ & Hb & Hd).
  pose proof (tidy_forget job l n cb H) as (Ho & Hf & Hn & _ & _).
  split; [|split; [|split; [|split]]].
  - apply Forall_app. split.
    + eapply Forall_impl; [exact Ho|]. intros t. cbn.
      destruct (decide (t_callback t = cb)); congruence.
    + constructor; [|constructor]. cbn. now rewrite decide_True.
  - apply Forall_app. split.
    + eapply Forall_impl; [exact Hf|]. cbn. lia.
    + constructor; [|constructor]. cbn. lia.
  - rewrite map_app. cbn. apply NoDup_app. split; [exact Hn|]. split.
    + intros i Hi Hi'. apply list_elem_of_singleton in Hi'. subst i.
      apply list_elem_of_fmap in Hi as (t & Ht & Hin).
      rewrite Forall_forall in Hf. specialize (Hf t Hin). cbn in Hf. lia.
    + apply NoDup_singleton.
  - intros c id. destruct (decide (c = cb)).
    + intros [= <-]. lia.
    + intros Hc. specialize (Hb c id Hc). lia.
  - intros c c' id.
    destruct (decide (c = cb)) as [->|], (decide (c' = cb)) as [->|].
    + reflexivity.
    + intros [= <-] Hc. specialize (Hb c' n Hc). lia.
    + intros Hc [= <-]. specialize (Hb c n Hc). lia.
    + apply Hd.
Qed.

Lemma tidy_remove job l n id :
  tidy job l n ->
  tidy job (filter (fun x => bool_decide (t_id x <> id)) l) n.
Proof.
  intros (Ho & Hf & Hn & Hb & Hd).
  split; [|split; [|split; [|split; assumption]]].
  - apply Forall_forall. intros t Ht. apply list_elem_of_filter in Ht as [_ Ht].
    rewrite Forall_forall in Ho. now apply Ho.
  - apply Forall_forall. intros t Ht. apply list_elem_of_filter in Ht as [_ Ht].
    rewrite Forall_forall in Hf. now apply Hf.
  - eapply NoDup_ids_sublist; [apply sublist_filter | exact Hn].
Qed.

End Tidy.

Section WellFormed.

Lemma timers_tidy_intro s l n sj cj ij :
  timers s = (l, n, (sj, cj, ij)) ->
  tidy (fun cb => match cb with
                  | cb_check_idle => ij
                  | cb_next_slide => sj
                  | cb_update_clock_overlay => cj
                  end) l n ->
  timers_tidy s.
Proof.
  unfold timers. intros [= <- <- <- <- <-] H.
  unfold timers_tidy. eapply tidy_ext; [|exact H].
  now intros [].
Qed.

Lemma timers_tidy_same s s' :
  timers s' = timers s -> timers_tidy s -> timers_tidy s'.
Proof.
  intros He H. unfold timers_tidy in H.
  eapply timers_tidy_intro; [exact He|].
  eapply tidy_ext; [|exact H]. now intros [].
Qed.

Lemma session_sound_same s s' :
  session_view s' = session_view s -> session_sound s -> session_sound s'.
Proof.
  intros He (Hdom & Hlen & Hact & Hidle).
  pose proof (f_equal (fun v => fst (fst (fst v))) He) as Hc.
  pose proof (f_equal (fun v => snd (fst (fst v))) He) as Hh.
  pose proof (f_equal (fun v => snd (fst v)) He) as Hl.
  pose proof (f_equal (fun v => fst (snd v)) He) as Hsj.
  pose proof (f_equal (fun v => snd (snd v)) He) as Hcj.
  cbn in Hc, Hh, Hl, Hsj, Hcj. unfold core in Hc.
  injection Hc as Hcfg Ha Hbo Himg Hidx.
  pose proof Hh as Hh'. unfold handles in Hh'.
  injection Hh' as Hw Htop _ _.
  unfold session_sound. rewrite Htop, Hw, Hl, Ha, Himg, Hidx, Hsj, Hcj.
  split; [assumption|]. split; [assumption|]. split.
  - intros Hon. destruct (Hact Hon) as (H1 & H2 & H3).
    split; [assumption|]. split; [assumption|].
    eapply surfaces_armed_handles; [exact Hh | exact H3].
  - exact Hidle.
Qed.

(** In an active session the job attributes may change freely. *)
Lemma session_sound_active_jobs s s' :
  saver_active s = true ->
  (core s', handles s', length (saver_labels s'))
  = (core s, handles s, length (saver_labels s)) ->
  session_sound s -> session_sound s'.
Proof.
  intros Hon He (Hdom & Hlen & Hact & Hidle).
  pose proof (f_equal (fun v => fst (fst v)) He) as Hc.
  pose proof (f_equal (fun v => snd (fst v)) He) as Hh.
  pose proof (f_equal snd He) as Hl.
  cbn in Hc, Hh, Hl. unfold core in Hc.
  injection Hc as Hcfg Ha Hbo Himg Hidx.
  pose proof Hh as Hh'. unfold handles in Hh'.
  injection Hh' as Hw Htop _ _.
  unfold session_sound. rewrite Htop, Hw, Hl, Ha, Himg, Hidx.
  split; [assumption|]. split; [assumption|]. split.
  - intros _. destruct (Hact Hon) as (H1 & H2 & H3).
    split; [assumption|]. split; [assumption|].
    eapply surfaces_armed_handles; [exact Hh | exact H3].
  - congruence.
Qed.

Lemma schedule_idle_check_well_formed s :
  well_formed s -> well_formed (snd (schedule_idle_check s)).
Proof.
  intros [Ht Hs]. split.
  - destruct (schedule_idle_check_timers s) as [_ E].
    eapply timers_tidy_intro; [exact E|].
    unfold timers_tidy in Ht.
    eapply tidy_ext; [|apply (tidy_rearm _ _ _ cb_check_idle 1000 Ht)].
    now intros [].
  - pose proof schedule_idle_check_keeps as K.
    destruct (schedule_idle_check_timers s) as [_ E].
    unfold timers in E. injection E as _ _ Esj Ecj _.
    eapply session_sound_same; [|exact Hs].
    destruct (triple_eq _ _ _ _ _ _ (K s)) as (Kc & Kh & Kl).
    unfold session_view. now rewrite Esj, Ecj, Kc, Kh, Kl.
Qed.

Lemma schedule_slideshow_well_formed s :
  saver_active s = true ->
  well_formed s -> well_formed (snd (schedule_slideshow s)).
Proof.
  intros Hon [Ht Hs]. split.
  - destruct (schedule_slideshow_timers s) as [_ E].
    eapply timers_tidy_intro; [exact E|].
    unfold timers_tidy in Ht.
    eapply tidy_ext; [|apply (tidy_rearm _ _ _ cb_next_slide _ Ht)].
    now intros [].
  - pose proof schedule_slideshow_keeps as K.
    destruct (triple_eq _ _ _ _ _ _ (K s)) as (Kc & Kh & Kl).
    eapply session_sound_active_jobs; [exact Hon | | exact Hs].
    now rewrite Kc, Kh, Kl.
Qed.

Lemma schedule_clock_overlay_well_formed s :
  saver_active s = true ->
  well_formed s -> well_formed (snd (schedule_clock_overlay s)).
Proof.
  intros Hon [Ht Hs]. split.
  - destruct (schedule_clock_overlay_timers s) as [_ E].
    eapply timers_tidy_intro; [exact E|].
    unfold timers_tidy in Ht.
    eapply tidy_ext; [|apply (tidy_rearm _ _ _ cb_update_clock_overlay 1000 Ht)].
    now intros [].
  - pose proof schedule_clock_overlay_keeps as K.
    destruct (triple_eq _ _ _ _ _ _ (K s)) as (Kc & Kh & Kl).
    eapply session_sound_active_jobs; [exact Hon | | exact Hs].
    now rewrite Kc, Kh, Kl.
Qed.

Lemma show_current_image_on_all_well_formed env s :
  well_formed s -> well_formed (snd (show_current_image_on_all env s)).
Proof.
  intros [Ht Hs]. split.
  - eapply timers_tidy_same; [apply show_current_image_on_all_timers | exact Ht].
  - pose proof (show_current_image_on_all_keeps env s) as K.
    pose proof (show_current_image_on_all_monitors env s) as Hm.
    apply (f_equal (@length Monitor)) in Hm. rewrite !length_map in Hm.
    eapply session_sound_same; [|exact Hs].
    destruct (quad_eq _ _ _ _ _ _ _ _ K) as (Kc & Kh & _ & Kj).
    destruct (triple_eq _ _ _ _ _ _ Kj) as (Ksj & Kcj & _).
    unfold session_view. now rewrite Hm, Kc, Kh, Ksj, Kcj.
Qed.

End WellFormed.

Section WellFormedMethods.

Variable env : Env.

Lemma foldl_delete_dom (wins : list nat) (m : gmap nat Window) :
  dom (foldl (fun m w => delete w m) m wins) = dom m ∖ list_to_set wins.
Proof.
  apply set_eq. intros k.
  rewrite elem_of_dom, elem_of_difference, elem_of_dom, elem_of_list_to_set.
  rewrite foldl_delete_lookup.
  destruct (bool_decide_reflect (k ∈ wins)) as [Hin|Hout].
  - split; [intros [? [=]] | tauto].
  - tauto.
Qed.

Lemma exit_screensaver_well_formed s :
  well_formed s -> well_formed (snd (exit_screensaver s)).
Proof.
  intros Hwf. destruct (saver_active s) eqn:Hon;
    [|now rewrite exit_screensaver_idle].
  destruct Hwf as [Ht (Hdom & Hlen & Hact & Hidle)].
  destruct (exit_screensaver_active s Hon)
    as (s' & -> & Hc & Hw & Hl & Hsj & Hcj & Hij & Hpos & Htop & Hp & Hn & _).
  cbn [snd]. split.
  - eapply (timers_tidy_intro s' _ _ None None (idle_check_job s)).
    + unfold timers. now rewrite Hp, Hn, Hsj, Hcj, Hij.
    + unfold timers_tidy in Ht.
      apply (tidy_forget _ _ _ cb_next_slide) in Ht.
      apply (tidy_forget _ _ _ cb_update_clock_overlay) in Ht.
      cbn in Ht. eapply tidy_ext; [|exact Ht]. now intros [].
  - unfold session_sound. rewrite Htop, Hw, Hl, Hsj, Hcj.
    unfold core in Hc. injection Hc as _ Ha _ _ _. rewrite Ha.
    split; [|split; [reflexivity|split; [discriminate|auto]]].
    rewrite foldl_delete_dom, Hdom. cbn. apply difference_diag_L.
Qed.

Lemma next_slide_well_formed s :
  well_formed s -> well_formed (snd (next_slide env s)).
Proof.
  intros Hwf. destruct (saver_active s) eqn:Hon.
  2:{ unfold next_slide. unfold bind at 1. cbv beta iota delta [gets].
      now rewrite Hon. }
  destruct Hwf as [Ht Hs]. pose proof Hs as (_ & _ & Hact & _).
  destruct (Hact Hon) as (Hne & Hidx & _).
  rewrite next_slide_steps by assumption. cbv zeta.
  set (n := Z.of_nat (length (current_images s))) in *.
  set (s1 := set_slideshow_index ((slideshow_index s + 1) mod n) s).
  assert (Hwf1 : well_formed s1 /\ saver_active s1 = true).
  { assert (Hn : 0 < n) by lia.
    pose proof (Z.mod_pos_bound (slideshow_index s + 1) n Hn) as Hb.
    destruct Hs as (Hdom & Hlen & _ & Hidle).
    destruct (Hact Hon) as (_ & _ & Harm).
    unfold s1. clear s1.
    split; [split|].
    - exact Ht.
    - unfold session_sound, set_slideshow_index. cbn.
      split; [assumption|]. split; [assumption|]. split; [|assumption].
      intros _. split; [assumption|]. split; [exact Hb|]. exact Harm.
    - exact Hon. }
  destruct Hwf1 as [Hwf1 Hon1].
  unfold bind.
  pose proof (show_current_image_on_all_well_formed env s1 Hwf1) as Hwf2.
  pose proof (show_current_image_on_all_keeps env s1) as K.
  destruct (show_current_image_on_all env s1) as [[[]|e] s2]; cbn [snd] in *;
    [|exact Hwf2].
  destruct (1 <? n); [|exact Hwf2].
  apply schedule_slideshow_well_formed; [|exact Hwf2].
  destruct (quad_eq _ _ _ _ _ _ _ _ K) as (Kc & _).
  unfold core in Kc. injection Kc as _ -> _ _ _. exact Hon1.
Qed.

End WellFormedMethods.

Section WellFormedSession.

Variable env : Env.

Lemma update_clock_overlay_well_formed s :
  well_formed s -> well_formed (snd (update_clock_overlay env s)).
Proof.
  intros Hwf. unfold update_clock_overlay.
  unfold bind at 1. cbv beta iota delta [gets].
  destruct (saver_active s) eqn:Hon; cbn [negb orb]; [|exact Hwf].
  destruct (negb (background_only s && clock_overlay (config s)));
    [exact Hwf|].
  unfold bind at 1. cbv beta iota delta [modify].
  apply schedule_clock_overlay_well_formed.
  - destruct s; exact Hon.
  - destruct Hwf as [Ht Hs]. split; [exact Ht|].
    unfold session_sound in *. cbn. now rewrite length_map.
Qed.

Lemma on_mouse_motion_well_formed win x y s :
  well_formed s -> well_formed (snd (on_mouse_motion env win x y s)).
Proof.
  intros Hwf. unfold on_mouse_motion.
  unfold bind at 1. cbv beta iota delta [gets].
  destruct (saver_active s); cbn [negb]; [|exact Hwf].
  destruct (settling env s); [exact Hwf|].
  destruct (activated_mouse_positions s !! win) as [[[ox oy]|]|].
  - destruct (_ || _); [|exact Hwf]. now apply exit_screensaver_well_formed.
  - exact Hwf.
  - exact Hwf.
Qed.

Lemma schedule_timers_well_formed s :
  saver_active s = true ->
  well_formed s -> well_formed (snd (schedule_timers s)).
Proof.
  intros Hon Hwf. unfold schedule_timers.
  unfold bind at 1. cbv beta iota delta [gets].
  destruct (negb (background_only s) && _).
  - now apply schedule_slideshow_well_formed.
  - destruct (background_only s && clock_overlay (config s)); [|exact Hwf].
    now apply schedule_clock_overlay_well_formed.
Qed.

Lemma start_session_well_formed preview images s :
  saver_active s = false -> images <> [] ->
  well_formed s -> well_formed (snd (start_session env preview images s)).
Proof.
  intros Hoff Hne [Ht (Hdom & Hlen & _ & Hidle)].
  destruct (Hidle Hoff) as (Hw & _).
  rewrite start_session_steps.
  destruct (session_setup_fields env preview images s)
    as (Hc0 & Ht0 & Hw0 & Hl0 & _ & _ & Htop0 & Hn0 & _).
  destruct (create_windows_spec env (get_all_monitors env)
              (session_setup env preview images s))
    as (s1 & E & Hc & Ht1 & _ & _ & Hw1 & Hl1 & _ & Htop1 & _).
  rewrite E. cbn [snd].
  assert (Hon1 : saver_active s1 = true).
  { rewrite Hc0 in Hc. unfold core in Hc. now injection Hc as _ -> _ _ _. }
  assert (Hwf1 : well_formed s1).
  { split.
    - eapply timers_tidy_same; [|exact Ht]. now rewrite Ht1, Ht0.
    - unfold session_sound.
      rewrite Htop1, Hw1, Hl1, Htop0, Hn0, Hw0, Hl0, Hon1.
      rewrite put_windows_dom, Hdom, Hw. cbn [app list_to_set length].
      split; [now rewrite union_empty_l_L|].
      split; [now rewrite length_map, length_seq|].
      split; [|discriminate]. intros _.
      rewrite Hc0 in Hc. unfold core in Hc. injection Hc as _ _ _ Hi Hx.
      rewrite Hi, Hx. split; [exact Hne|]. split.
      + destruct images; [congruence | cbn; lia].
      + pose proof (create_windows_armed env (get_all_monitors env)
                      (session_setup env preview images s)) as Ha.
        rewrite E in Ha. apply Ha. intros win Hin.
        rewrite Hw0 in Hin. now apply elem_of_nil in Hin. }
  unfold bind.
  pose proof (show_current_image_on_all_well_formed env s1 Hwf1) as Hwf2.
  pose proof (show_current_image_on_all_keeps env s1) as K.
  destruct (show_current_image_on_all env s1) as [[[]|e] s2]; cbn [snd] in *;
    [|exact Hwf2].
  apply schedule_timers_well_formed; [|exact Hwf2].
  destruct (quad_eq _ _ _ _ _ _ _ _ K) as (Kc & _).
  unfold core in Kc. injection Kc as _ -> _ _ _. exact Hon1.
Qed.

Lemma showerror_well_formed title msg s :
  well_formed s -> well_formed (snd (showerror title msg s)).
Proof. intros H. exact H. Qed.

Lemma activate_screensaver_well_formed preview s :
  well_formed s -> well_formed (snd (activate_screensaver env preview s)).
Proof.
  intros Hwf. destruct (saver_active s) eqn:Hoff;
    [now rewrite activate_screensaver_active|].
  destruct (read_widgets (widgets s) (config s)) as [cfg|] eqn:Hr.
  - rewrite (activate_screensaver_idle env preview s cfg Hoff Hr). cbv zeta.
    assert (Hwf0 : forall bo,
               well_formed (set_background_only bo (refreshed cfg s)))
      by (intros bo; exact Hwf).
    assert (Hoff0 : forall bo,
               saver_active (set_background_only bo (refreshed cfg s)) = false)
      by (intros bo; exact Hoff).
    assert (Hstart : forall bo images,
               images <> [] ->
               well_formed
                 (snd (start_session env preview images
                         (set_background_only bo (refreshed cfg s))))).
    { intros bo images Hne. now apply start_session_well_formed. }
    destruct (String.eqb (mode cfg) "single").
    + destruct (negb _ && _); [now apply (Hstart false)|].
      destruct (allow_blank_single cfg); [now apply (Hstart true)|].
      exact Hwf.
    + destruct (bool_decide_reflect
                  (list_images_in_folder (fs env) (image_path cfg) = []))
        as [He|Hne]; [exact Hwf|].
      apply (Hstart false). intros He.
      apply (f_equal (@length (option string))) in He.
      rewrite length_map in He. destruct (shuffle cfg).
      * rewrite (Permutation_length (random_shuffle_perm env _)) in He.
        destruct (list_images_in_folder _ _); [congruence|discriminate].
      * destruct (list_images_in_folder _ _); [congruence|discriminate].
  - unfold activate_screensaver.
    unfold bind at 1. cbv beta iota delta [gets]. rewrite Hoff.
    unfold bind at 1. cbv beta iota delta [update_tk modify].
    unfold bind at 1. cbv beta iota delta [gets].
    replace (widgets (set_tk _ s)) with (widgets s) by (now destruct s).
    replace (config (set_tk _ s)) with (config s) by (now destruct s).
    rewrite Hr. exact Hwf.
Qed.

Lemma finally_state {A} (c : M A) (h : M unit) s :
  snd (finally c h s) = snd (h (snd (c s))).
Proof.
  unfold finally. destruct (c s) as [r s']. cbn.
  now destruct (h s') as [[[]|e] s''].
Qed.

Lemma check_idle_well_formed s :
  well_formed s -> well_formed (snd (check_idle env s)).
Proof.
  intros Hwf. unfold check_idle. rewrite finally_state.
  apply schedule_idle_check_well_formed.
  unfold bind at 1. cbv beta iota delta [gets].
  destruct (saver_active s); cbn [negb]; [exact Hwf|].
  unfold bind at 1. cbv beta iota delta [gets].
  destruct (_ && _); [|exact Hwf].
  now apply activate_screensaver_well_formed.
Qed.

Lemma after_cancel_well_formed id s :
  well_formed s -> well_formed (snd (after_cancel id s)).
Proof.
  intros [Ht Hs]. split; [|exact Hs].
  unfold timers_tidy in *. cbn.
  apply (tidy_remove _ _ _ id) in Ht. exact Ht.
Qed.

Lemma fire_timer_well_formed id s :
  well_formed s -> well_formed (snd (fire_timer env id s)).
Proof.
  intros Hwf. unfold fire_timer.
  unfold bind at 1. cbv beta iota delta [gets].
  destruct (find _ _) as [t|]; [|exact Hwf].
  unfold bind at 1.
  replace (after_cancel id s) with (Ok tt, snd (after_cancel id s))
    by reflexivity.
  apply (after_cancel_well_formed id) in Hwf.
  destruct (t_callback t); cbn [run_callback].
  - now apply check_idle_well_formed.
  - now apply next_slide_well_formed.
  - now apply update_clock_overlay_well_formed.
Qed.

Lemma deliver_well_formed win ev s :
  well_formed s -> well_formed (snd (deliver env win ev s)).
Proof.
  intros Hwf. unfold deliver.
  unfold bind at 1. cbv beta iota delta [gets].
  destruct (toplevels (tk s) !! win) as [w|]; [|exact Hwf].
  destruct (binding_of _ _) as [[]|]; [| |exact Hwf].
  - now apply exit_screensaver_well_formed.
  - destruct ev; try exact Hwf. now apply on_mouse_motion_well_formed.
Qed.

Lemma perform_well_formed a s :
  well_formed s -> well_formed (snd (perform env a s)).
Proof.
  intros Hwf. destruct a; cbn [perform].
  - now apply fire_timer_well_formed.
  - now apply deliver_well_formed.
  - unfold deliver_root. unfold bind at 1. cbv beta iota delta [gets].
    destruct (binding_of _ _) as [[]|]; try exact Hwf.
    now apply exit_screensaver_well_formed.
  - now apply activate_screensaver_well_formed.
  - unfold on_hide_to_tray. unfold bind at 1. cbv beta iota delta [gets].
    destruct (tray s); exact Hwf.
  - exact Hwf.
  - unfold save_config. unfold bind at 1.
    unfold bind at 1. cbv beta iota delta [gets].
    destruct (timeout_entry (widgets s)), (slide_entry (widgets s));
      exact Hwf.
  - exact Hwf.
Qed.

End WellFormedSession.

Lemma init_well_formed cfg form has_tray : well_formed (init cfg form has_tray).
Proof.
  unfold init. apply schedule_idle_check_well_formed.
  split.
  - unfold timers_tidy, tidy. cbn.
    split; [constructor|]. split; [constructor|]. split; [constructor|].
    split; [intros []; discriminate | intros [] ? ?; discriminate].
  - unfold session_sound. cbn. repeat split; try discriminate.
Qed.

(** The invariant of the event loop holds in every reachable state. *)
Lemma reachable_well_formed s : reachable s -> well_formed s.
Proof.
  induction 1 as [cfg form has_tray | env a s _ IH].
  - apply init_well_formed.
  - now apply perform_well_formed.
Qed.

Section Poll.

Variable env : Env.

Lemma timers_split s l n j :
  timers s = (l, n, j) -> pending (tk s) = l.
Proof. unfold timers. intros H. now inversion H. Qed.

Lemma poll_pending_same s s' :
  timers s' = timers s -> poll_pending s -> poll_pending s'.
Proof.
  intros H. apply timers_split in H. unfold poll_pending. now rewrite H.
Qed.

(** Cancelling the timer of another callback leaves the idle poll. *)
Lemma cancel_keeps_poll job l n cb :
  tidy job l n -> cb <> cb_check_idle ->
  (exists t, t ∈ l /\ t_callback t = cb_check_idle) ->
  exists t, t ∈ cancel (job cb) l /\ t_callback t = cb_check_idle.
Proof.
  intros (Ho & _ & _ & _ & Hd) Hne (t & Hin & Hcb).
  exists t. split; [|exact Hcb].
  destruct (job cb) as [id|] eqn:Hj; cbn; [|exact Hin].
  apply list_elem_of_filter. split; [|exact Hin].
  apply bool_decide_pack. intros Hid.
  rewrite Forall_forall in Ho. specialize (Ho t Hin). rewrite Hcb, Hid in Ho.
  apply Hne. exact (Hd _ _ _ Hj Ho).
Qed.

Lemma schedule_idle_check_poll s : poll_pending (snd (schedule_idle_check s)).
Proof.
  destruct (schedule_idle_check_timers s) as [_ E].
  apply timers_split in E. unfold poll_pending. rewrite E.
  exists (idle_timer s). split; [|reflexivity].
  apply elem_of_app. right. constructor.
Qed.

Lemma schedule_slideshow_poll s :
  timers_tidy s -> poll_pending s -> poll_pending (snd (schedule_slideshow s)).
Proof.
  intros Ht Hp. destruct (schedule_slideshow_timers s) as [_ E].
  apply timers_split in E. unfold poll_pending. rewrite E.
  destruct (cancel_keeps_poll (job_of s) _ _ cb_next_slide Ht
              ltac:(discriminate) Hp) as (t & Hin & Hcb).
  exists t. split; [|exact Hcb]. apply elem_of_app. now left.
Qed.

Lemma schedule_clock_overlay_poll s :
  timers_tidy s -> poll_pending s ->
  poll_pending (snd (schedule_clock_overlay s)).
Proof.
  intros Ht Hp. destruct (schedule_clock_overlay_timers s) as [_ E].
  apply timers_split in E. unfold poll_pending. rewrite E.
  destruct (cancel_keeps_poll (job_of s) _ _ cb_update_clock_overlay Ht
              ltac:(discriminate) Hp) as (t & Hin & Hcb).
  exists t. split; [|exact Hcb]. apply elem_of_app. now left.
Qed.

Lemma exit_screensaver_poll s :
  timers_tidy s -> poll_pending s -> poll_pending (snd (exit_screensaver s)).
Proof.
  intros Ht Hp. destruct (saver_active s) eqn:Hon;
    [|now rewrite exit_screensaver_idle].
  destruct (exit_screensaver_active s Hon)
    as (s' & -> & _ & _ & _ & _ & _ & _ & _ & _ & E & _).
  cbn [snd]. unfold poll_pending. rewrite E.
  pose proof (cancel_keeps_poll (job_of s) _ _ cb_next_slide Ht
                ltac:(discriminate) Hp) as Hp1.
  pose proof (tidy_forget _ _ _ cb_next_slide Ht) as Ht1.
  exact (cancel_keeps_poll _ _ _ cb_update_clock_overlay Ht1
           ltac:(discriminate) Hp1).
Qed.

Lemma show_current_image_on_all_poll s :
  poll_pending s -> poll_pending (snd (show_current_image_on_all env s)).
Proof. apply poll_pending_same, show_current_image_on_all_timers. Qed.

Lemma next_slide_poll s :
  well_formed s -> poll_pending s -> poll_pending (snd (next_slide env s)).
Proof.
  intros [Ht Hs] Hp. destruct (saver_active s) eqn:Hon.
  2:{ unfold next_slide. unfold bind at 1. cbv beta iota delta [gets].
      now rewrite Hon. }
  destruct Hs as (_ & _ & Hact & _). destruct (Hact Hon) as (Hne & _ & _).
  rewrite next_slide_steps by assumption. cbv zeta.
  set (n := Z.of_nat (length (current_images s))).
  set (s1 := set_slideshow_index ((slideshow_index s + 1) mod n) s).
  assert (E1 : timers s1 = timers s) by (unfold s1; now destruct s).
  unfold bind.
  pose proof (show_current_image_on_all_timers env s1) as E2.
  destruct (show_current_image_on_all env s1) as [[[]|e] s2]; cbn [snd] in *.
  - rewrite E1 in E2. destruct (1 <? n).
    + apply schedule_slideshow_poll.
      * eapply timers_tidy_same; [exact E2 | exact Ht].
      * eapply poll_pending_same; [exact E2 | exact Hp].
    + eapply poll_pending_same; [exact E2 | exact Hp].
  - rewrite E1 in E2. eapply poll_pending_same; [exact E2 | exact Hp].
Qed.

Lemma update_clock_overlay_poll s :
  timers_tidy s -> poll_pending s ->
  poll_pending (snd (update_clock_overlay env s)).
Proof.
  intros Ht Hp. unfold update_clock_overlay.
  unfold bind at 1. cbv beta iota delta [gets].
  destruct (negb (saver_active s) || _); [exact Hp|].
  unfold bind at 1. cbv beta iota delta [modify].
  apply schedule_clock_overlay_poll.
  - eapply timers_tidy_same; [|exact Ht]. now destruct s.
  - eapply poll_pending_same; [|exact Hp]. now destruct s.
Qed.

Lemma on_mouse_motion_poll win x y s :
  timers_tidy s -> poll_pending s ->
  poll_pending (snd (on_mouse_motion env win x y s)).
Proof.
  intros Ht Hp. unfold on_mouse_motion.
  unfold bind at 1. cbv beta iota delta [gets].
  destruct (saver_active s); cbn [negb]; [|exact Hp].
  destruct (settling env s); [exact Hp|].
  destruct (activated_mouse_positions s !! win) as [[[ox oy]|]|].
  - destruct (_ || _); [|exact Hp]. now apply exit_screensaver_poll.
  - eapply poll_pending_same; [|exact Hp]. now destruct s.
  - eapply poll_pending_same; [|exact Hp]. now destruct s.
Qed.

Lemma schedule_timers_poll s :
  timers_tidy s -> poll_pending s -> poll_pending (snd (schedule_timers s)).
Proof.
  intros Ht Hp. unfold schedule_timers.
  unfold bind at 1. cbv beta iota delta [gets].
  destruct (negb (background_only s) && _).
  - now apply schedule_slideshow_poll.
  - destruct (background_only s && clock_overlay (config s)); [|exact Hp].
    now apply schedule_clock_overlay_poll.
Qed.

Lemma start_session_poll preview images s :
  timers_tidy s -> poll_pending s ->
  poll_pending (snd (start_session env preview images s)).
Proof.
  intros Ht Hp. rewrite start_session_steps.
  pose proof (session_setup_timers env preview images s) as E0.
  destruct (create_windows_spec env (get_all_monitors env)
              (session_setup env preview images s))
    as (s1 & E & _ & E1 & _).
  rewrite E. cbn [snd]. rewrite E0 in E1. unfold bind.
  pose proof (show_current_image_on_all_timers env s1) as E2.
  rewrite E1 in E2.
  destruct (show_current_image_on_all env s1) as [[[]|e] s2]; cbn [snd] in *.
  - apply schedule_timers_poll.
    + eapply timers_tidy_same; [exact E2 | exact Ht].
    + eapply poll_pending_same; [exact E2 | exact Hp].
  - eapply poll_pending_same; [exact E2 | exact Hp].
Qed.

Lemma activate_screensaver_poll preview s :
  timers_tidy s -> poll_pending s ->
  poll_pending (snd (activate_screensaver env preview s)).
Proof.
  intros Ht Hp. destruct (saver_active s) eqn:Hoff;
    [now rewrite activate_screensaver_active|].
  destruct (read_widgets (widgets s) (config s)) as [cfg|] eqn:Hr.
  - rewrite (activate_screensaver_idle env preview s cfg Hoff Hr). cbv zeta.
    assert (Hstart : forall bo images,
               poll_pending
                 (snd (start_session env preview images
                         (set_background_only bo (refreshed cfg s))))).
    { intros bo images. apply start_session_poll; [exact Ht | exact Hp]. }
    destruct (String.eqb (mode cfg) "single").
    + destruct (negb _ && _); [apply (Hstart false)|].
      destruct (allow_blank_single cfg); [apply (Hstart true)|].
      exact Hp.
    + destruct (bool_decide _); [exact Hp | apply (Hstart false)].
  - unfold activate_screensaver.
    unfold bind at 1. cbv beta iota delta [gets]. rewrite Hoff.
    unfold bind at 1. cbv beta iota delta [update_tk modify].
    unfold bind at 1. cbv beta iota delta [gets].
    replace (widgets (set_tk _ s)) with (widgets s) by (now destruct s).
    replace (config (set_tk _ s)) with (config s) by (now destruct s).
    rewrite Hr. exact Hp.
Qed.

(** Whatever happens in the poll, the next one is armed. *)
Lemma check_idle_poll s : poll_pending (snd (check_idle env s)).
Proof.
  unfold check_idle. rewrite finally_state. apply schedule_idle_check_poll.
Qed.

(** A timer of another callback that expires leaves the idle poll. *)
Lemma expiry_keeps_poll job l n id t :
  tidy job l n ->
  find (fun x => bool_decide (t_id x = id)) l = Some t ->
  t_callback t <> cb_check_idle ->
  (exists t0, t0 ∈ l /\ t_callback t0 = cb_check_idle) ->
  exists t0, t0 ∈ cancel (Some id) l /\ t_callback t0 = cb_check_idle.
Proof.
  intros (Ho & _ & _ & _ & Hd) Hfind Hne (t0 & Hin & Hcb).
  apply find_some in Hfind as [Ht Hid].
  apply list_elem_of_In in Ht. apply bool_decide_eq_true_1 in Hid.
  exists t0. split; [|exact Hcb]. cbn [cancel].
  apply list_elem_of_filter. split; [|exact Hin].
  apply bool_decide_pack. intros Hid0.
  rewrite Forall_forall in Ho.
  pose proof (Ho t Ht) as H1. pose proof (Ho t0 Hin) as H2.
  rewrite Hcb, Hid0 in H2. rewrite Hid in H1.
  apply Hne. exact (Hd _ _ _ H1 H2).
Qed.

Lemma fire_timer_poll id s :
  well_formed s -> poll_pending s -> poll_pending (snd (fire_timer env id s)).
Proof.
  intros Hwf Hp. unfold fire_timer.
  unfold bind at 1. cbv beta iota delta [gets].
  destruct (find _ _) as [t|] eqn:Hfind; [|exact Hp].
  unfold bind at 1.
  replace (after_cancel id s) with (Ok tt, snd (after_cancel id s))
    by reflexivity.
  pose proof (after_cancel_well_formed id s Hwf) as Hwf1.
  assert (Hp1 : t_callback t <> cb_check_idle ->
                poll_pending (snd (after_cancel id s))).
  { intros Hne. destruct Hwf as [Ht _].
    exact (expiry_keeps_poll _ _ _ _ _ Ht Hfind Hne Hp). }
  destruct (t_callback t) eqn:Hcb; cbn [run_callback].
  - apply check_idle_poll.
  - apply next_slide_poll; [exact Hwf1|]. now apply Hp1.
  - apply update_clock_overlay_poll; [apply Hwf1|]. now apply Hp1.
Qed.

Lemma deliver_poll win ev s :
  timers_tidy s -> poll_pending s -> poll_pending (snd (deliver env win ev s)).
Proof.
  intros Ht Hp. unfold deliver.
  unfold bind at 1. cbv beta iota delta [gets].
  destruct (toplevels (tk s) !! win) as [w|]; [|exact Hp].
  destruct (binding_of _ _) as [[]|]; [| |exact Hp].
  - now apply exit_screensaver_poll.
  - destruct ev; try exact Hp. now apply on_mouse_motion_poll.
Qed.

Lemma perform_poll a s :
  well_formed s -> poll_pending s -> poll_pending (snd (perform env a s)).
Proof.
  intros Hwf Hp. pose proof Hwf as [Ht _]. destruct a; cbn [perform].
  - now apply fire_timer_poll.
  - now apply deliver_poll.
  - unfold deliver_root. unfold bind at 1. cbv beta iota delta [gets].
    destruct (binding_of _ _) as [[]|]; try exact Hp.
    now apply exit_screensaver_poll.
  - now apply activate_screensaver_poll.
  - unfold on_hide_to_tray. unfold bind at 1. cbv beta iota delta [gets].
    destruct (tray s); exact Hp.
  - exact Hp.
  - unfold save_config. unfold bind at 1.
    unfold bind at 1. cbv beta iota delta [gets].
    destruct (timeout_entry (widgets s)), (slide_entry (widgets s));
      exact Hp.
  - exact Hp.
Qed.

End Poll.

Lemma reachable_poll s : reachable s -> poll_pending s.
Proof.
  induction 1 as [cfg form has_tray | env a s Hr IH].
  - unfold init. apply schedule_idle_check_poll.
  - apply perform_poll; [now apply reachable_well_formed | exact IH].
Qed.

Lemma elem_of_cancel job (l : list Timer) t :
  t ∈ cancel job l <-> t ∈ l /\ Some (t_id t) <> job.
Proof.
  destruct job as [id|]; cbn.
  - rewrite list_elem_of_filter. split.
    + intros [H Hin]. apply bool_decide_unpack in H. split; [exact Hin|].
      congruence.
    + intros [Hin H]. split; [|exact Hin]. apply bool_decide_pack. congruence.
  - split; [intros H; split; [exact H | discriminate] | now intros [H _]].
Qed.

(** X1. Leaving an active session ([exit_screensaver], lines 573-602)
    returns normally and releases everything the session held: the
    session is idle, the handle and label lists are empty, every saver
    window is destroyed and no other toplevel is touched, the slideshow
    and clock jobs are cleared and exactly their timers are cancelled (the
    idle poll stays), and without a tray icon the settings window is
    shown again.  The configuration, the image list and the index are
    left as they were. *)
Theorem exit_releases_the_session :
  forall (s : App),
    saver_active s = true ->
    let s' := snd (exit_screensaver s) in
    fst (exit_screensaver s) = Ok tt /\
    saver_active s' = false /\
    saver_windows s' = [] /\ saver_labels s' = [] /\
    (forall win,
        toplevels (tk s') !! win =
        if bool_decide (win ∈ saver_windows s) then None
        else toplevels (tk s) !! win) /\
    slideshow_job s' = None /\ clock_job s' = None /\
    idle_check_job s' = idle_check_job s /\
    (forall t,
        t ∈ pending (tk s') <->
        t ∈ pending (tk s) /\
        Some (t_id t) <> slideshow_job s /\ Some (t_id t) <> clock_job s) /\
    root_wm (tk s') = (if tray s then root_wm (tk s) else wm_normal) /\
    (config s', background_only s', current_images s', slideshow_index s')
    = (config s, background_only s, current_images s, slideshow_index s).
Proof.
  intros s Ha s'. unfold s'.
  destruct (exit_screensaver_active s Ha)
    as (s1 & -> & Hc & Hw & Hl & Hsj & Hcj & Hij & _ & Htop & Hp & _ & _ & Hwm).
  cbn [fst snd]. unfold core in Hc. injection Hc as Hcfg Hact Hbo Himg Hidx.
  split; [reflexivity|]. split; [exact Hact|].
  split; [exact Hw|]. split; [exact Hl|].
  split; [intros win; rewrite Htop; apply foldl_delete_lookup|].
  split; [exact Hsj|]. split; [exact Hcj|]. split; [exact Hij|].
  split.
  - intros t. rewrite Hp, !elem_of_cancel. tauto.
  - split; [exact Hwm|]. now rewrite Hcfg, Hbo, Himg, Hidx.
Qed.

(** The sample slideshow: leaving it destroys both windows and cancels
    the slideshow timer; the idle poll is still pending. *)
Lemma exit_releases_the_session_witness :
  let s' := snd (exit_screensaver Sample.slideshow) in
  saver_active s' = false /\
  toplevels (tk s') !! 0%nat = None /\ toplevels (tk s') !! 1%nat = None /\
  map t_callback (pending (tk Sample.slideshow))
  = [cb_check_idle; cb_next_slide] /\
  (forall t, t ∈ pending (tk s') -> t_callback t = cb_check_idle).
Proof.
  destruct (exit_releases_the_session Sample.slideshow)
    as (_ & Hact & _ & _ & Htop & _ & _ & _ & Hp & _).
  - vm_compute. reflexivity.
  - split; [exact Hact|].
    split; [rewrite Htop; vm_compute; reflexivity|].
    split; [rewrite Htop; vm_compute; reflexivity|].
    split; [vm_compute; reflexivity|].
    intros t Ht. apply Hp in Ht as (Hin & Hs & _).
    revert Hin Hs. vm_compute. intros Hin Hs.
    apply elem_of_cons in Hin as [->|Hin]; [reflexivity|].
    apply elem_of_cons in Hin as [->|Hin]; [now elim Hs|].
    now apply elem_of_nil in Hin.
Defined.

Section Layout.

Variable env : Env.

(** An activation that brings the session up has resolved a non-empty
    image list and run lines 396-464 on the refreshed state. *)
Lemma activation_started preview s (P : App -> Prop) :
  saver_active s = false ->
  (forall cfg bo images,
      read_widgets (widgets s) (config s) = Some cfg ->
      images <> [] ->
      P (snd (start_session env preview images
                (set_background_only bo (refreshed cfg s))))) ->
  saver_active (snd (activate_screensaver env preview s)) = true ->
  P (snd (activate_screensaver env preview s)).
Proof.
  intros Ha HP.
  destruct (read_widgets (widgets s) (config s)) as [cfg|] eqn:Hr.
  - rewrite (activate_screensaver_idle env preview s cfg Ha Hr). cbv zeta.
    assert (Herr : forall title msg,
               saver_active (snd (showerror title msg (refreshed cfg s)))
               = true -> False).
    { intros title msg H. open_app s. cbn in H. congruence. }
    destruct (String.eqb (mode cfg) "single").
    + destruct (negb _ && _);
        [intros _; now apply (HP cfg false)|].
      destruct (allow_blank_single cfg);
        [intros _; now apply (HP cfg true)|].
      intros H. now apply Herr in H.
    + destruct (bool_decide_reflect
                  (list_images_in_folder (fs env) (image_path cfg) = []))
        as [He|Hne].
      * intros H. now apply Herr in H.
      * intros _. apply (HP cfg false); [reflexivity|].
        intros He. apply (f_equal (@length (option string))) in He.
        rewrite length_map in He. destruct (shuffle cfg).
        -- rewrite (Permutation_length (random_shuffle_perm env _)) in He.
           destruct (list_images_in_folder _ _); [congruence|discriminate].
        -- destruct (list_images_in_folder _ _); [congruence|discriminate].
  - unfold activate_screensaver.
    unfold bind at 1. cbv beta iota delta [gets]. rewrite Ha.
    unfold bind at 1. cbv beta iota delta [update_tk modify].
    unfold bind at 1. cbv beta iota delta [gets].
    replace (widgets (set_tk _ s)) with (widgets s)
      by (open_app s; reflexivity).
    replace (config (set_tk _ s)) with (config s)
      by (open_app s; reflexivity).
    rewrite Hr. intros H. open_app s. cbn in H. congruence.
Qed.

End Layout.

(** X2. An activation that brings the session up (the monitor loop of
    [activate_screensaver], lines 407-455) builds exactly one surface per
    monitor that [get_all_monitors()] reports, in that order: the handles
    are fresh and consecutive, the label of each surface is paired with
    its monitor, the toplevel behind each handle is the window built for
    that monitor in the session's background colour, the pointer query is
    the input baseline of every new surface and of nothing else, older
    toplevels are left alone, and the activation time is the clock
    reading. *)
Theorem activation_builds_one_surface_per_monitor :
  forall (env : Env) (preview : bool) (s : App),
    saver_active s = false ->
    let s' := snd (activate_screensaver env preview s) in
    saver_active s' = true ->
    let mons := get_all_monitors env in
    let first := next_window (tk s) in
    saver_windows s' = seq first (length mons) /\
    map snd (saver_labels s') = mons /\
    (forall i mon,
        mons !! i = Some mon ->
        toplevels (tk s') !! (first + i)%nat
        = Some (saver_window (background (config s')) mon)) /\
    (forall win,
        (win < first)%nat ->
        toplevels (tk s') !! win = toplevels (tk s) !! win) /\
    (forall win,
        activated_mouse_positions s' !! win =
        if decide (first <= win < first + length mons)%nat
        then Some (winfo_pointer env) else None) /\
    activated_at s' = time_time env.
Proof.
  intros env preview s Ha s' Hup mons first. unfold s' in *. clear s'.
  pattern (snd (activate_screensaver env preview s)).
  apply (activation_started env preview s); [exact Ha | | exact Hup].
  clear Hup. intros cfg bo images _ _.
  set (s0 := set_background_only bo (refreshed cfg s)).
  destruct (start_session_surfaces env preview images s0)
    as (Hw & Hl & Htop & Hpos & Hat).
  pose proof (start_session_core env preview images s0) as Hc.
  unfold core in Hc. injection Hc as Hcfg _ _ _ _.
  change (next_window (tk s0)) with first in Hw, Htop, Hpos.
  change (toplevels (tk s0)) with (toplevels (tk s)) in Htop.
  fold mons in Hw, Hl, Htop, Hpos.
  split; [exact Hw|]. split; [exact Hl|].
  split; [|split; [|split; [|exact Hat]]].
  - intros i mon Hi. rewrite Htop, Hcfg, put_windows_lookup.
    rewrite decide_True by lia.
    replace (first + i - first)%nat with i by lia. now rewrite Hi.
  - intros win Hlt. rewrite Htop, put_windows_lookup.
    rewrite decide_False by lia. reflexivity.
  - intros win. rewrite Hpos, put_baselines_lookup.
    destruct (decide _); [reflexivity | apply lookup_empty].
Qed.

(** The sample installation has two monitors: activation from the fresh
    object builds the windows 0 and 1. *)
Lemma activation_builds_one_surface_per_monitor_witness :
  let s' := snd (activate_screensaver Sample.env false Sample.idle_app) in
  saver_windows s' = [0%nat; 1%nat] /\
  map snd (saver_labels s')
  = [mkMonitor 0 0 1920 1080; mkMonitor 1920 0 1280 1024] /\
  toplevels (tk s') !! 1%nat
  = Some (saver_window "#000000" (mkMonitor 1920 0 1280 1024)) /\
  activated_mouse_positions s' !! 1%nat = Some (Some (100, 200)).
Proof.
  destruct (activation_builds_one_surface_per_monitor
              Sample.env false Sample.idle_app)
    as (Hw & Hl & Htop & _ & Hpos & _).
  - reflexivity.
  - vm_compute. reflexivity.
  - split; [exact Hw|]. split; [exact Hl|]. split.
    + etransitivity;
        [exact (Htop 1%nat (mkMonitor 1920 0 1280 1024) eq_refl)|].
      vm_compute. reflexivity.
    + rewrite Hpos. reflexivity.
Defined.

Lemma NoDup_fmap_coarser {A B C : Type} (f : A -> B) (g : A -> C)
    (l : list A) :
  (forall x y, x ∈ l -> y ∈ l -> g x = g y -> f x = f y) ->
  NoDup (f <$> l) -> NoDup (g <$> l).
Proof.
  induction l as [|a l IH]; intros Hfg Hn; cbn in *; [constructor|].
  apply NoDup_cons in Hn as [Hout Hn]. apply NoDup_cons. split.
  - intros Hin. apply list_elem_of_fmap in Hin as (b & Hb & Hin).
    apply Hout. apply list_elem_of_fmap. exists b. split; [|exact Hin].
    apply Hfg; [constructor | now constructor | exact Hb].
  - apply IH; [|exact Hn]. intros x y Hx Hy. apply Hfg; now constructor.
Qed.

Lemma tidy_one_timer_per_callback job l n :
  tidy job l n -> NoDup (map t_callback l).
Proof.
  intros (Ho & _ & Hn & _). rewrite Forall_forall in Ho.
  apply (NoDup_fmap_coarser t_id t_callback l); [|exact Hn].
  intros x y Hx Hy Hxy. apply Ho in Hx, Hy. rewrite Hxy in Hx. congruence.
Qed.

(** X3. Every callback the toolkit can run keeps the object state
    consistent ([fire_timer] runs [check_idle], [next_slide] or
    [update_clock_overlay]; [deliver] runs [exit_screensaver] or
    [on_mouse_motion]; also when the callback raises).  Consistent means
    ([well_formed]): every pending timer is the one that the job
    attribute of its callback names, timer ids are never reused and no
    two job attributes hold the same id; the live toplevels are exactly
    the handles in [saver_windows], with one label each; an active session
    has a non-empty image list, an index inside it and only live
    surfaces; an idle session has no surface and no slideshow or clock
    job. *)
Theorem callbacks_keep_the_state_consistent :
  forall (env : Env) (s : App),
    well_formed s ->
    (forall id, well_formed (snd (fire_timer env id s))) /\
    (forall win ev, well_formed (snd (deliver env win ev s))) /\
    (forall preview, well_formed (snd (activate_screensaver env preview s))) /\
    well_formed (snd (exit_screensaver s)).
Proof.
  intros env s Hwf.
  split; [intros id; now apply fire_timer_well_formed|].
  split; [intros win ev; now apply deliver_well_formed|].
  split; [intros preview; now apply activate_screensaver_well_formed|].
  now apply exit_screensaver_well_formed.
Qed.

Lemma callbacks_keep_the_state_consistent_witness :
  well_formed (snd (fire_timer Sample.env 0 Sample.idle_app)) /\
  well_formed (snd (activate_screensaver Sample.env false Sample.idle_app)).
Proof.
  destruct (callbacks_keep_the_state_consistent Sample.env Sample.idle_app)
    as (Hfire & _ & Hact & _).
  - split.
    + unfold timers_tidy, tidy. cbn.
      split; [repeat constructor|]. split; [repeat constructor|].
      split.
      * apply NoDup_cons. split; [apply not_elem_of_nil | constructor].
      * split.
        -- intros [] id; cbn; intros [=]; subst; lia.
        -- intros [] [] id; cbn; intros [=] [=]; reflexivity.
    + unfold session_sound. cbn. repeat split; try discriminate.
  - split; [apply Hfire | apply Hact].
Defined.

(** X4. In every state the program can reach (from [__init__], by any
    sequence of timer expiries, input events, button and tray actions,
    whatever the platform answers): the live toplevels are exactly the
    handles in [saver_windows], one label per handle; while the session
    is active the image list is not empty, the slideshow index lies
    inside it, and every handle is a live surface with the saver's
    bindings; while it is idle there is no handle and no toplevel, and
    the only timers pending are idle polls. *)
Theorem reachable_states_are_consistent :
  forall (s : App),
    reachable s ->
    (forall win, is_Some (toplevels (tk s) !! win) <-> win ∈ saver_windows s) /\
    length (saver_labels s) = length (saver_windows s) /\
    (saver_active s = true ->
     current_images s <> [] /\
     0 <= slideshow_index s < Z.of_nat (length (current_images s)) /\
     (forall win, win ∈ saver_windows s -> is_surface s win)) /\
    (saver_active s = false ->
     saver_windows s = [] /\ toplevels (tk s) = ∅ /\
     (forall t, t ∈ pending (tk s) -> t_callback t = cb_check_idle)).
Proof.
  intros s Hr. apply reachable_well_formed in Hr.
  destruct Hr as [(Ho & _) (Hdom & Hlen & Hact & Hidle)].
  split; [|split; [exact Hlen|split; [exact Hact|]]].
  - intros win. rewrite <- elem_of_dom, Hdom. apply elem_of_list_to_set.
  - intros Hoff. destruct (Hidle Hoff) as (Hw & Hsj & Hcj).
    split; [exact Hw|]. split.
    + apply dom_empty_iff_L. now rewrite Hdom, Hw.
    + intros t Ht. rewrite Forall_forall in Ho. specialize (Ho t Ht).
      unfold job_of in Ho. destruct (t_callback t); congruence.
Qed.

Lemma reachable_states_are_consistent_witness :
  let s := snd (perform Sample.env (start_saver false)
                  (init default_config (Sample.form "folder" "pics" false)
                        false)) in
  saver_active s = true /\
  current_images s <> [] /\
  0 <= slideshow_index s < Z.of_nat (length (current_images s)) /\
  (forall win, is_Some (toplevels (tk s) !! win) <-> win ∈ saver_windows s).
Proof.
  destruct (reachable_states_are_consistent
              (snd (perform Sample.env (start_saver false)
                      (init default_config
                            (Sample.form "folder" "pics" false) false))))
    as (Hdom & _ & Hact & _).
  - apply reachable_step, reachable_init.
  - assert (Hon : saver_active
                    (snd (perform Sample.env (start_saver false)
                            (init default_config
                                  (Sample.form "folder" "pics" false) false)))
                  = true) by (vm_compute; reflexivity).
    destruct (Hact Hon) as (Hne & Hidx & _).
    split; [exact Hon|]. split; [exact Hne|]. split; [exact Hidx|exact Hdom].
Defined.

(** X5. In every reachable state at most one timer is pending for each
    callback ([check_idle], [next_slide], [update_clock_overlay]), and it
    is the timer whose id the job attribute of that callback holds: the
    cancel-then-schedule pattern of [schedule_idle_check],
    [schedule_slideshow] and [schedule_clock_overlay] never leaves a
    second timer behind. *)
Theorem at_most_one_timer_is_pending_per_callback :
  forall (s : App),
    reachable s ->
    NoDup (map t_callback (pending (tk s))) /\
    Forall (fun t => job_of s (t_callback t) = Some (t_id t)) (pending (tk s)).
Proof.
  intros s Hr. apply reachable_well_formed in Hr as [Ht _].
  split; [exact (tidy_one_timer_per_callback _ _ _ Ht) | apply Ht].
Qed.

Lemma at_most_one_timer_is_pending_per_callback_witness :
  let s := snd (perform Sample.env (timer_expires 1)
             (snd (perform Sample.env (start_saver false)
                  (init default_config (Sample.form "folder" "pics" false)
                        false)))) in
  map t_callback (pending (tk s)) = [cb_check_idle; cb_next_slide] /\
  NoDup (map t_callback (pending (tk s))).
Proof.
  destruct (at_most_one_timer_is_pending_per_callback
              (snd (perform Sample.env (timer_expires 1)
                 (snd (perform Sample.env (start_saver false)
                      (init default_config
                            (Sample.form "folder" "pics" false) false))))))
    as (Hn & _).
  - apply reachable_step, reachable_step, reachable_init.
  - split; [vm_compute; reflexivity | exact Hn].
Defined.

(** X6. In every reachable state an idle poll is pending, and it is the
    timer that [idle_check_job] names: neither an exit, nor a slideshow or
    clock tick, nor an activation that fails cancels it, and [check_idle]
    re-arms it in its [finally] clause whatever the activation does. *)
Theorem the_idle_poll_is_always_pending :
  forall (s : App),
    reachable s ->
    exists t,
      t ∈ pending (tk s) /\ t_callback t = cb_check_idle /\
      idle_check_job s = Some (t_id t).
Proof.
  intros s Hr. destruct (reachable_poll s Hr) as (t & Hin & Hcb).
  apply reachable_well_formed in Hr as [(Ho & _) _].
  exists t. split; [exact Hin|]. split; [exact Hcb|].
  rewrite Forall_forall in Ho. specialize (Ho t Hin).
  now rewrite Hcb in Ho.
Qed.

Lemma the_idle_poll_is_always_pending_witness :
  let s := snd (perform Sample.env key_on_root
             (snd (perform Sample.env (start_saver false)
                  (init default_config (Sample.form "folder" "pics" false)
                        false)))) in
  saver_active s = false /\
  exists t, t ∈ pending (tk s) /\ t_callback t = cb_check_idle.
Proof.
  destruct (the_idle_poll_is_always_pending
              (snd (perform Sample.env key_on_root
                 (snd (perform Sample.env (start_saver false)
                      (init default_config
                            (Sample.form "folder" "pics" false) false))))))
    as (t & Hin & Hcb & _).
  - apply reachable_step, reachable_step, reachable_init.
  - split; [vm_compute; reflexivity|]. exists t. now split.
Defined.
